(** * TaskForge: the task aggregate, the partial-update applier and the
      Postgres repository, embedded in Rocq.

    Go packages become modules of the same name ([domain], [todov1], [app],
    [postgres]).  A [*Todo] that a method mutates in place is passed in and
    handed back; [error] results are [option error] with [None] for [nil].
    Calls to [time.Now] and [uuid.New] read from an explicit [World]. *)

From Stdlib Require Import ZArith String Ascii List Bool Lia.
From stdpp Require Import base gmap strings list pretty.

Local Open Scope string_scope.
Local Open Scope Z_scope.

(** ** Machine integers and the outside world *)

(** Go's [int64] (and [int] on a 64-bit platform): two's complement,
    arithmetic wraps around silently. *)
Definition min_int64 : Z := - 2 ^ 63.
Definition max_int64 : Z := 2 ^ 63 - 1.

Definition wrap64 (z : Z) : Z := (z + 2 ^ 63) mod 2 ^ 64 - 2 ^ 63.

Definition in_int64 (z : Z) : Prop := min_int64 <= z <= max_int64.

(** [x++] on an [int64]. *)
Definition incr64 (x : Z) : Z := wrap64 (x + 1).

(** An instant; [time.Time] values are only compared and stored. *)
Definition Time := Z.

(** [a.Before(b)] *)
Definition Before (a b : Time) : bool := a <? b.

(** What the process reads from outside: the successive answers of
    [time.Now().UTC()] and of [uuid.New().String()], with how many of each
    have been consumed. *)
Record World := mkWorld {
  clock : nat -> Time;
  ticks : nat;
  uuids : nat -> string;
  drawn : nat
}.

Definition time_Now (w : World) : Time * World :=
  (clock w (ticks w),
   {| clock := clock w; ticks := S (ticks w); uuids := uuids w; drawn := drawn w |}).

Definition uuid_New (w : World) : string * World :=
  (uuids w (drawn w),
   {| clock := clock w; ticks := ticks w; uuids := uuids w; drawn := S (drawn w) |}).

(** [len(s)] of a Go string is its number of bytes; a Rocq [string] is a
    sequence of bytes, so this is [String.length]. *)
Definition len (s : string) : nat := String.length s.

(** What the database driver reports when a statement is refused.  Only the
    refusals that the statements of this program can meet on a reachable
    database are listed. *)
Inductive DriverError : Set :=
| UniqueViolation (constraint : string)
| TxDone.

#[global] Instance DriverError_eq_dec : EqDecision DriverError.
Proof. solve_decision. Defined.

(** ** Package domain *)
Module domain.

(** [type TodoStatus int] with [iota + 1] constants. *)
Definition TodoStatus := Z.
Definition StatusPending : TodoStatus := 1.
Definition StatusInProgress : TodoStatus := 2.
Definition StatusCompleted : TodoStatus := 3.
Definition StatusArchived : TodoStatus := 4.

(** [type TodoPriority int] with [iota + 1] constants. *)
Definition TodoPriority := Z.
Definition PriorityLow : TodoPriority := 1.
Definition PriorityMedium : TodoPriority := 2.
Definition PriorityHigh : TodoPriority := 3.
Definition PriorityCritical : TodoPriority := 4.

(** Values of Go's [error] interface that occur in the program: the sentinel
    errors of the package, and what [fmt.Errorf(msg + ": %w", cause)] builds
    around a driver error.  [==] on errors is equality of these values, so a
    wrapped error is never equal to a sentinel. *)
Inductive error : Set :=
| ErrEmptyTitle
| ErrTitleTooLong
| ErrDescriptionTooLong
| ErrInvalidOwnerId
| ErrInvalidTenantID
| ErrInvalidPriority
| ErrDueDateInPast
| ErrTooManyTags
| ErrInvalidStatusTransition
| ErrTodoNotFound
| ErrVersionMismatch
| ErrUnauthorized
| ErrForbidden
| Errorf (msg : string) (cause : DriverError).

#[global] Instance error_eq_dec : EqDecision error.
Proof. solve_decision. Defined.

(** [err.Error()] *)
Definition Error (e : error) : string :=
  match e with
  | ErrEmptyTitle => "title cannot be empty"
  | ErrTitleTooLong => "title exceeds 200 characters"
  | ErrDescriptionTooLong => "description exceeds 2000 characters"
  | ErrInvalidOwnerId => "owner ID is required"
  | ErrInvalidTenantID => "tenant ID is required"
  | ErrInvalidPriority => "invalid priority value"
  | ErrDueDateInPast => "due date cannot be in the past"
  | ErrTooManyTags => "maximum 20 tags allowed"
  | ErrInvalidStatusTransition => "invalid status transition"
  | ErrTodoNotFound => "todo not found"
  | ErrVersionMismatch => "version mismatch - concurrent update detected"
  | ErrUnauthorized => "unauthorized access"
  | ErrForbidden => "forbidden - insufficient permissions"
  | Errorf msg _ => msg
  end.

Record Todo := mkTodo {
  ID : string;
  Title : string;
  Description : string;
  Status : TodoStatus;
  Priority : TodoPriority;
  DueDate : option Time;
  Tags : list string;
  OwnerID : string;
  AssignedTo : option string;
  TenantID : string;
  CreatedAt : Time;
  UpdatedAt : Time;
  Version : Z
}.

(** Field assignments [t.F = v]. *)
Definition set_Title (v : string) (t : Todo) : Todo :=
  mkTodo (ID t) v (Description t) (Status t) (Priority t) (DueDate t) (Tags t)
         (OwnerID t) (AssignedTo t) (TenantID t) (CreatedAt t) (UpdatedAt t) (Version t).
Definition set_Description (v : string) (t : Todo) : Todo :=
  mkTodo (ID t) (Title t) v (Status t) (Priority t) (DueDate t) (Tags t)
         (OwnerID t) (AssignedTo t) (TenantID t) (CreatedAt t) (UpdatedAt t) (Version t).
Definition set_Status (v : TodoStatus) (t : Todo) : Todo :=
  mkTodo (ID t) (Title t) (Description t) v (Priority t) (DueDate t) (Tags t)
         (OwnerID t) (AssignedTo t) (TenantID t) (CreatedAt t) (UpdatedAt t) (Version t).
Definition set_Priority (v : TodoPriority) (t : Todo) : Todo :=
  mkTodo (ID t) (Title t) (Description t) (Status t) v (DueDate t) (Tags t)
         (OwnerID t) (AssignedTo t) (TenantID t) (CreatedAt t) (UpdatedAt t) (Version t).
Definition set_DueDate (v : option Time) (t : Todo) : Todo :=
  mkTodo (ID t) (Title t) (Description t) (Status t) (Priority t) v (Tags t)
         (OwnerID t) (AssignedTo t) (TenantID t) (CreatedAt t) (UpdatedAt t) (Version t).
Definition set_Tags (v : list string) (t : Todo) : Todo :=
  mkTodo (ID t) (Title t) (Description t) (Status t) (Priority t) (DueDate t) v
         (OwnerID t) (AssignedTo t) (TenantID t) (CreatedAt t) (UpdatedAt t) (Version t).
Definition set_AssignedTo (v : option string) (t : Todo) : Todo :=
  mkTodo (ID t) (Title t) (Description t) (Status t) (Priority t) (DueDate t) (Tags t)
         (OwnerID t) v (TenantID t) (CreatedAt t) (UpdatedAt t) (Version t).
Definition set_UpdatedAt (v : Time) (t : Todo) : Todo :=
  mkTodo (ID t) (Title t) (Description t) (Status t) (Priority t) (DueDate t) (Tags t)
         (OwnerID t) (AssignedTo t) (TenantID t) (CreatedAt t) v (Version t).
Definition set_Version (v : Z) (t : Todo) : Todo :=
  mkTodo (ID t) (Title t) (Description t) (Status t) (Priority t) (DueDate t) (Tags t)
         (OwnerID t) (AssignedTo t) (TenantID t) (CreatedAt t) (UpdatedAt t) v.

(** The tail every mutator shares:
    [t.UpdatedAt = time.Now().UTC(); t.Version++; return nil]. *)
Definition touch (t : Todo) (w : World) : option error * Todo * World :=
  let '(now, w) := time_Now w in
  let t := set_UpdatedAt now t in
  let t := set_Version (incr64 (Version t)) t in
  (None, t, w).

Definition validateTitle (title : string) : option error :=
  if String.eqb title "" then Some ErrEmptyTitle
  else if (200 <? len title)%nat then Some ErrTitleTooLong
  else None.

Definition isValidPriority (p : TodoPriority) : bool :=
  (PriorityLow <=? p) && (p <=? PriorityCritical).

(** The map literal of [isValidStatusTransition]. *)
Definition validTransitions : gmap Z (list TodoStatus) :=
  <[StatusPending := [StatusInProgress; StatusArchived]]>
  (<[StatusInProgress := [StatusArchived; StatusCompleted; StatusPending]]>
  (<[StatusCompleted := [StatusArchived; StatusPending]]>
  (<[StatusArchived := [StatusPending]]> ∅))).

(** [for _, status := range allowed { if status == to { return true } }
    return false] *)
Fixpoint rangeAllowed (allowed : list TodoStatus) (to : TodoStatus) : bool :=
  match allowed with
  | [] => false
  | status :: rest => if status =? to then true else rangeAllowed rest to
  end.

Definition isValidStatusTransition (from to : TodoStatus) : bool :=
  match validTransitions !! from with
  | None => false
  | Some allowed => rangeAllowed allowed to
  end.

(** [NewTodo] returns a pointer to the new todo together with an [error]:
    here the todo or the error. *)
Definition NewTodo (title description ownerID tenantID : string)
    (priority : TodoPriority) (w : World) : (Todo + error) * World :=
  match validateTitle title with
  | Some err => (inr err, w)
  | None =>
    if String.eqb ownerID "" then (inr ErrInvalidOwnerId, w)
    else if String.eqb tenantID "" then (inr ErrInvalidTenantID, w)
    else
      let '(now, w) := time_Now w in
      let '(id, w) := uuid_New w in
      (inl {| ID := id; Title := title; Description := description;
              Status := StatusPending; Priority := priority; DueDate := None;
              Tags := []; OwnerID := ownerID; AssignedTo := None;
              TenantID := tenantID; CreatedAt := now; UpdatedAt := now;
              Version := 1 |}, w)
  end.

Definition UpdateTitle (title : string) (t : Todo) (w : World)
    : option error * Todo * World :=
  match validateTitle title with
  | Some err => (Some err, t, w)
  | None => touch (set_Title title t) w
  end.

Definition UpdateDescription (description : string) (t : Todo) (w : World)
    : option error * Todo * World :=
  if (2000 <? len description)%nat then (Some ErrDescriptionTooLong, t, w)
  else touch (set_Description description t) w.

Definition UpdateStatus (newStatus : TodoStatus) (t : Todo) (w : World)
    : option error * Todo * World :=
  if negb (isValidStatusTransition (Status t) newStatus)
  then (Some ErrInvalidStatusTransition, t, w)
  else touch (set_Status newStatus t) w.

Definition UpdatePriority (priority : TodoPriority) (t : Todo) (w : World)
    : option error * Todo * World :=
  if negb (isValidPriority priority) then (Some ErrInvalidPriority, t, w)
  else touch (set_Priority priority t) w.

(** [dueDate != nil && dueDate.Before(time.Now().UTC())]: the clock is read
    for the comparison only when a date is given. *)
Definition SetDueDate (dueDate : option Time) (t : Todo) (w : World)
    : option error * Todo * World :=
  match dueDate with
  | Some d =>
    let '(now, w') := time_Now w in
    if Before d now then (Some ErrDueDateInPast, t, w')
    else touch (set_DueDate dueDate t) w'
  | None => touch (set_DueDate dueDate t) w
  end.

Definition AssignTo (userID : option string) (t : Todo) (w : World)
    : option error * Todo * World :=
  touch (set_AssignedTo userID t) w.

Definition AddTags (tags : list string) (t : Todo) (w : World)
    : option error * Todo * World :=
  if (20 <? length (Tags t) + length tags)%nat then (Some ErrTooManyTags, t, w)
  else touch (set_Tags (Tags t ++ tags) t) w.

Record ListFilter := mkListFilter {
  f_TenantID : string;
  f_OwnerID : option string;
  f_AssignedTo : option string;
  Statuses : list TodoStatus;
  Priorities : list TodoPriority;
  f_Tags : list string;
  DueDateFrom : option Time;
  DueDateTo : option Time;
  SearchQuery : option string;
  Page : Z;
  PageSize : Z;
  SortBy : string;
  SortAscending : bool
}.

Definition set_Page (v : Z) (f : ListFilter) : ListFilter :=
  mkListFilter (f_TenantID f) (f_OwnerID f) (f_AssignedTo f) (Statuses f)
    (Priorities f) (f_Tags f) (DueDateFrom f) (DueDateTo f) (SearchQuery f)
    v (PageSize f) (SortBy f) (SortAscending f).
Definition set_PageSize (v : Z) (f : ListFilter) : ListFilter :=
  mkListFilter (f_TenantID f) (f_OwnerID f) (f_AssignedTo f) (Statuses f)
    (Priorities f) (f_Tags f) (DueDateFrom f) (DueDateTo f) (SearchQuery f)
    (Page f) v (SortBy f) (SortAscending f).

(** [Validate] has a pointer receiver: the clamped filter is handed back
    with the result. *)
Definition Validate (f : ListFilter) : option error * ListFilter :=
  if String.eqb (f_TenantID f) "" then (Some ErrInvalidTenantID, f)
  else
    let f := if Page f <? 1 then set_Page 1 f else f in
    let f := if (PageSize f <? 1) || (100 <? PageSize f) then set_PageSize 20 f else f in
    (None, f).

(** [type Repository interface]: the persistence port.  A method takes the
    store and hands back the store it leaves behind; methods that read the
    clock do the same with the [World].  [List] runs a statement that is
    assembled at run time; what it assembles is in [postgres] below. *)
Module Repository.
Class t (DB : Type) := {
  Create : Todo -> DB -> option error * DB;
  GetByID : string -> string -> DB -> Todo + error;
  Update : Todo -> DB -> World -> option error * DB * World;
  Delete : string -> string -> DB -> World -> option error * DB * World;
  UpdateStatus : string -> string -> TodoStatus -> Z -> DB -> World
                 -> (Todo + error) * DB * World;
  BatchCreate : list Todo -> DB -> option error * DB
}.
End Repository.

End domain.

(** ** Package todov1 (generated from the protocol definition)

    The generated package is not among the sources; the messages and
    constants below are the ones the service reads and writes, with the
    names it uses for them. *)
Module todov1.

Inductive TodoStatus : Set :=
| TodoStatus_TODO_STATUS_UNSPECIFIED
| TodoStatus_TODO_STATUS_PENDING
| TodoStatus_TODO_STATUS_IN_PROGRESS
| TodoStatus_TODO_STATUS_COMPLETED
| TodoStatus_TODO_STATUS_ARCHIVED.

Inductive TodoPriority : Set :=
| TodoPriority_TODO_PRIORITY_UNSPECIFIED
| TodoPriority_TODO_PRIORITY_LOW
| TodoPriority_TODO_PRIORITY_MEDIUM
| TodoPriority_TODO_PRIORITY_HIGH
| TodoPriority_TODO_PRIORITY_CRITICAL.

(** The message [Todo]; a timestamp field is [None] when unset and
    [AsTime] of a set one is the instant it holds. *)
Record Todo := mkTodo {
  Id : string;
  Title : string;
  Description : string;
  Status : TodoStatus;
  Priority : TodoPriority;
  DueDate : option Time;
  Tags : list string;
  OwnerId : string;
  AssignedTo : string;
  TenantId : string;
  CreatedAt : Time;
  UpdatedAt : Time;
  Version : Z
}.

(** [fieldmaskpb.FieldMask] *)
Record FieldMask := mkFieldMask { Paths : list string }.

Record UpdateTodoRequest := mkUpdateTodoRequest {
  req_Id : string;
  req_Todo : Todo;
  UpdateMask : option FieldMask
}.

Record UpdateTodoResponse := mkUpdateTodoResponse { resp_Todo : Todo }.

Record CreateTodoRequest := mkCreateTodoRequest {
  c_Title : string;
  c_Description : string;
  c_Priority : TodoPriority;
  c_DueDate : option Time;
  c_Tags : list string;
  c_AssignedTo : string
}.

Record CreateTodoResponse := mkCreateTodoResponse { created_Todo : Todo }.

Record GetTodoRequest := mkGetTodoRequest { get_Id : string }.

Record GetTodoResponse := mkGetTodoResponse { got_Todo : Todo }.

Record DeleteTodoRequest := mkDeleteTodoRequest { del_Id : string }.

Record DeleteTodoResponse := mkDeleteTodoResponse { Success : bool }.

End todov1.

(** ** Package auth *)
Module auth.

Record UserContext := mkUserContext {
  UserID : string;
  TenantID : string;
  Roles : list string
}.

(** [slices.Contains(userCtx.Roles, role)] *)
Definition hasRole (userCtx : UserContext) (role : string) : bool :=
  existsb (String.eqb role) (Roles userCtx).

Definition CanUpdate (userCtx : UserContext) (todo : domain.Todo) : bool :=
  if hasRole userCtx "admin" && String.eqb (TenantID userCtx) (domain.TenantID todo)
  then true
  else if String.eqb (TenantID userCtx) (domain.TenantID todo) then
    if String.eqb (domain.OwnerID todo) (UserID userCtx) then true
    else match domain.AssignedTo todo with
         | Some a => if String.eqb a (UserID userCtx) then true else false
         | None => false
         end
  else false.

Definition CanCreate (userCtx : UserContext) : bool :=
  hasRole userCtx "user" || hasRole userCtx "admin".

Definition CanRead (userCtx : UserContext) (todo : domain.Todo) : bool :=
  if hasRole userCtx "admin" && String.eqb (TenantID userCtx) (domain.TenantID todo)
  then true
  else if String.eqb (TenantID userCtx) (domain.TenantID todo) then
    if String.eqb (domain.OwnerID todo) (UserID userCtx) then true
    else match domain.AssignedTo todo with
         | Some a => if String.eqb a (UserID userCtx) then true else false
         | None => false
         end
  else false.

Definition CanDelete (userCtx : UserContext) (todo : domain.Todo) : bool :=
  if hasRole userCtx "admin" && String.eqb (TenantID userCtx) (domain.TenantID todo)
  then true
  else String.eqb (TenantID userCtx) (domain.TenantID todo)
       && String.eqb (domain.OwnerID todo) (UserID userCtx).

Definition CanReadAll (userCtx : UserContext) : bool := hasRole userCtx "admin".

End auth.

(** ** Package app *)
Module app.

(** gRPC status codes the handlers answer with. *)
Inductive Code : Set :=
| Unauthenticated | InvalidArgument | PermissionDenied | NotFound
| FailedPrecondition | Aborted | Internal.

(** [status.Error(code, msg)] *)
Record Status := mkStatus { code : Code; message : string }.

Definition mapDomainStatus (s : domain.TodoStatus) : todov1.TodoStatus :=
  if s =? domain.StatusPending then todov1.TodoStatus_TODO_STATUS_PENDING
  else if s =? domain.StatusInProgress then todov1.TodoStatus_TODO_STATUS_IN_PROGRESS
  else if s =? domain.StatusCompleted then todov1.TodoStatus_TODO_STATUS_COMPLETED
  else if s =? domain.StatusArchived then todov1.TodoStatus_TODO_STATUS_ARCHIVED
  else todov1.TodoStatus_TODO_STATUS_UNSPECIFIED.

Definition mapProtoStatus (s : todov1.TodoStatus) : domain.TodoStatus :=
  match s with
  | todov1.TodoStatus_TODO_STATUS_PENDING => domain.StatusPending
  | todov1.TodoStatus_TODO_STATUS_IN_PROGRESS => domain.StatusInProgress
  | todov1.TodoStatus_TODO_STATUS_COMPLETED => domain.StatusCompleted
  | todov1.TodoStatus_TODO_STATUS_ARCHIVED => domain.StatusArchived
  | _ => domain.StatusPending
  end.

Definition mapDomainPriority (p : domain.TodoPriority) : todov1.TodoPriority :=
  if p =? domain.PriorityLow then todov1.TodoPriority_TODO_PRIORITY_LOW
  else if p =? domain.PriorityMedium then todov1.TodoPriority_TODO_PRIORITY_MEDIUM
  else if p =? domain.PriorityHigh then todov1.TodoPriority_TODO_PRIORITY_HIGH
  else if p =? domain.PriorityCritical then todov1.TodoPriority_TODO_PRIORITY_CRITICAL
  else todov1.TodoPriority_TODO_PRIORITY_UNSPECIFIED.

Definition mapProtoPriority (p : todov1.TodoPriority) : domain.TodoPriority :=
  match p with
  | todov1.TodoPriority_TODO_PRIORITY_LOW => domain.PriorityLow
  | todov1.TodoPriority_TODO_PRIORITY_HIGH => domain.PriorityHigh
  | todov1.TodoPriority_TODO_PRIORITY_CRITICAL => domain.PriorityCritical
  | _ => domain.PriorityMedium
  end.

Definition mapDomainToProto (todo : domain.Todo) : todov1.Todo :=
  {| todov1.Id := domain.ID todo;
     todov1.Title := domain.Title todo;
     todov1.Description := domain.Description todo;
     todov1.Status := mapDomainStatus (domain.Status todo);
     todov1.Priority := mapDomainPriority (domain.Priority todo);
     todov1.DueDate := domain.DueDate todo;
     todov1.Tags := domain.Tags todo;
     todov1.OwnerId := domain.OwnerID todo;
     todov1.AssignedTo := default "" (domain.AssignedTo todo);
     todov1.TenantId := domain.TenantID todo;
     todov1.CreatedAt := domain.CreatedAt todo;
     todov1.UpdatedAt := domain.UpdatedAt todo;
     todov1.Version := domain.Version todo |}.

(** A mutation of the aggregate under update: the todo and the world go in,
    the error (or [nil]) comes out with both as the call left them. *)
Definition Mutation := domain.Todo -> World -> option domain.error * domain.Todo * World.

(** [if err := m(...); err != nil { return err }] followed by [k]. *)
Definition andThen (m k : Mutation) : Mutation :=
  fun t w =>
    match m t w with
    | (Some err, t', w') => (Some err, t', w')
    | (None, t', w') => k t' w'
    end.

(** [return nil] *)
Definition done_ : Mutation := fun t w => (None, t, w).

Definition updateAllFields (updates : todov1.Todo) : Mutation :=
  andThen (domain.UpdateTitle (todov1.Title updates))
 (andThen (domain.UpdateDescription (todov1.Description updates))
 (andThen (domain.UpdatePriority (mapProtoPriority (todov1.Priority updates)))
  done_)).

(** One iteration of the loop of [applyFieldMaskUpdates]: the [switch path]
    with the calls of its cases.  A case that does not return falls out of
    the switch with [nil]. *)
Definition applyPath (updates : todov1.Todo) (path : string) : Mutation :=
  if String.eqb path "title" then
    domain.UpdateTitle (todov1.Title updates)
  else if String.eqb path "description" then
    domain.UpdateDescription (todov1.Description updates)
  else if String.eqb path "priority" then
    domain.UpdatePriority (mapProtoPriority (todov1.Priority updates))
  else if String.eqb path "status" then
    domain.UpdateStatus (mapProtoStatus (todov1.Status updates))
  else if String.eqb path "due_date" then
    match todov1.DueDate updates with
    | Some dueDate => domain.SetDueDate (Some dueDate)
    | None => done_
    end
  else if String.eqb path "assigned_to" then
    if negb (String.eqb (todov1.AssignedTo updates) "")
    then domain.AssignTo (Some (todov1.AssignedTo updates))
    else done_
  else if String.eqb path "tags" then
    if (0 <? length (todov1.Tags updates))%nat
    then domain.AddTags (todov1.Tags updates)
    else done_
  else done_.

(** [for _, path := range mask.Paths { ... }; return nil] *)
Fixpoint rangePaths (updates : todov1.Todo) (paths : list string) : Mutation :=
  match paths with
  | [] => done_
  | path :: rest => andThen (applyPath updates path) (rangePaths updates rest)
  end.

Definition applyFieldMaskUpdates (updates : todov1.Todo)
    (mask : option todov1.FieldMask) : Mutation :=
  match mask with
  | None => updateAllFields updates
  | Some m =>
    if (length (todov1.Paths m) =? 0)%nat then updateAllFields updates
    else rangePaths updates (todov1.Paths m)
  end.

Section Service.
Context {DB : Type} `{repo : !domain.Repository.t DB}.

(** What [UpdateTodo] does once the conditional write has answered. *)
Definition afterUpdate (existing : domain.Todo)
    (r : option domain.error * DB * World)
    : (todov1.UpdateTodoResponse + Status) * DB * World :=
  match r with
  | (Some err, db, w) =>
    if decide (err = domain.ErrVersionMismatch)
    then (inr (mkStatus Aborted "concurrent update detected, please retry"), db, w)
    else (inr (mkStatus Internal "failed to update todo"), db, w)
  | (None, db, w) =>
    (inl (todov1.mkUpdateTodoResponse (mapDomainToProto existing)), db, w)
  end.

(** [UpdateTodo]; [userCtx] is what [auth.UserContextFromContext] finds in
    the request context, [None] when it finds nothing. *)
Definition UpdateTodo (userCtx : option auth.UserContext)
    (req : todov1.UpdateTodoRequest) (db : DB) (w : World)
    : (todov1.UpdateTodoResponse + Status) * DB * World :=
  match userCtx with
  | None => (inr (mkStatus Unauthenticated "authentication required"), db, w)
  | Some userCtx =>
    match domain.Repository.GetByID (todov1.req_Id req) (auth.TenantID userCtx) db with
    | inr err =>
      if decide (err = domain.ErrTodoNotFound)
      then (inr (mkStatus NotFound "todo not found"), db, w)
      else (inr (mkStatus Internal "failed to retrieve todo"), db, w)
    | inl existing =>
      if negb (auth.CanUpdate userCtx existing)
      then (inr (mkStatus PermissionDenied "insufficient permissions"), db, w)
      else
        match applyFieldMaskUpdates (todov1.req_Todo req) (todov1.UpdateMask req)
                                    existing w with
        | (Some err, _, w) => (inr (mkStatus InvalidArgument (domain.Error err)), db, w)
        | (None, existing, w) =>
          afterUpdate existing (domain.Repository.Update existing db w)
        end
    end
  end.

End Service.

(** How many mutators of the aggregate the applier calls for a request when
    none of them fails: three without a mask, otherwise one for every path
    of the mask that names a field and is not skipped for an unset value. *)
Definition callsMutator (updates : todov1.Todo) (path : string) : bool :=
  String.eqb path "title" || String.eqb path "description"
  || String.eqb path "priority" || String.eqb path "status"
  || (String.eqb path "due_date" && bool_decide (todov1.DueDate updates <> None))
  || (String.eqb path "assigned_to" && negb (String.eqb (todov1.AssignedTo updates) ""))
  || (String.eqb path "tags" && (0 <? length (todov1.Tags updates))%nat).

Definition mutatorsRun (updates : todov1.Todo) (mask : option todov1.FieldMask) : nat :=
  match mask with
  | None => 3
  | Some m =>
    match todov1.Paths m with
    | [] => 3
    | paths => length (filter (fun p => callsMutator updates p = true) paths)
    end
  end.

(** [validateCreateRequest]; the error is the text of the [fmt.Errorf]. *)
Definition validateCreateRequest (req : todov1.CreateTodoRequest) : option string :=
  if String.eqb (todov1.c_Title req) "" then Some "title is required"
  else if (200 <? len (todov1.c_Title req))%nat then Some "title exceeds maximum length"
  else None.

Definition mapDomainError (err : domain.error) : Status :=
  match err with
  | domain.ErrEmptyTitle | domain.ErrTitleTooLong | domain.ErrDescriptionTooLong
  | domain.ErrInvalidPriority | domain.ErrDueDateInPast | domain.ErrTooManyTags =>
    mkStatus InvalidArgument (domain.Error err)
  | domain.ErrInvalidStatusTransition => mkStatus FailedPrecondition (domain.Error err)
  | domain.ErrTodoNotFound => mkStatus NotFound (domain.Error err)
  | domain.ErrVersionMismatch => mkStatus Aborted (domain.Error err)
  | domain.ErrUnauthorized => mkStatus Unauthenticated (domain.Error err)
  | domain.ErrForbidden => mkStatus PermissionDenied (domain.Error err)
  | _ => mkStatus Internal "internal server error"
  end.

(** The optional fields of [CreateTodo]: due date, tags and assignee are
    set through the mutators when the request carries them. *)
Definition createOptionals (req : todov1.CreateTodoRequest) : Mutation :=
  andThen (match todov1.c_DueDate req with
           | Some dueDate => domain.SetDueDate (Some dueDate)
           | None => done_
           end)
 (andThen (if (0 <? length (todov1.c_Tags req))%nat
           then domain.AddTags (todov1.c_Tags req) else done_)
 (andThen (if negb (String.eqb (todov1.c_AssignedTo req) "")
           then domain.AssignTo (Some (todov1.c_AssignedTo req)) else done_)
  done_)).

Section Handlers.
Context {DB : Type} `{repo : !domain.Repository.t DB}.

Definition CreateTodo (userCtx : option auth.UserContext)
    (req : todov1.CreateTodoRequest) (db : DB) (w : World)
    : (todov1.CreateTodoResponse + Status) * DB * World :=
  match userCtx with
  | None => (inr (mkStatus Unauthenticated "authentication required"), db, w)
  | Some userCtx =>
    match validateCreateRequest req with
    | Some msg => (inr (mkStatus InvalidArgument msg), db, w)
    | None =>
      if negb (auth.CanCreate userCtx)
      then (inr (mkStatus PermissionDenied "Insufficient permissions"), db, w)
      else
        match domain.NewTodo (todov1.c_Title req) (todov1.c_Description req)
                (auth.UserID userCtx) (auth.TenantID userCtx)
                (mapProtoPriority (todov1.c_Priority req)) w with
        | (inr err, w) => (inr (mapDomainError err), db, w)
        | (inl todo, w) =>
          match createOptionals req todo w with
          | (Some err, _, w) => (inr (mapDomainError err), db, w)
          | (None, todo, w) =>
            match domain.Repository.Create todo db with
            | (Some _, db) => (inr (mkStatus Internal "failed to create todo"), db, w)
            | (None, db) =>
              (inl (todov1.mkCreateTodoResponse (mapDomainToProto todo)), db, w)
            end
          end
        end
    end
  end.

Definition GetTodo (userCtx : option auth.UserContext) (req : todov1.GetTodoRequest)
    (db : DB) : todov1.GetTodoResponse + Status :=
  match userCtx with
  | None => inr (mkStatus Unauthenticated "authentication required")
  | Some userCtx =>
    if String.eqb (todov1.get_Id req) "" then
      inr (mkStatus InvalidArgument "todo ID is required")
    else
      match domain.Repository.GetByID (todov1.get_Id req) (auth.TenantID userCtx) db with
      | inr err =>
        if decide (err = domain.ErrTodoNotFound)
        then inr (mkStatus NotFound "todo not found")
        else inr (mkStatus Internal "failed to retrieve todo")
      | inl todo =>
        if negb (auth.CanRead userCtx todo)
        then inr (mkStatus PermissionDenied "insufficient permissions")
        else inl (todov1.mkGetTodoResponse (mapDomainToProto todo))
      end
  end.

Definition DeleteTodo (userCtx : option auth.UserContext)
    (req : todov1.DeleteTodoRequest) (db : DB) (w : World)
    : (todov1.DeleteTodoResponse + Status) * DB * World :=
  match userCtx with
  | None => (inr (mkStatus Unauthenticated "authentication required"), db, w)
  | Some userCtx =>
    match domain.Repository.GetByID (todov1.del_Id req) (auth.TenantID userCtx) db with
    | inr err =>
      if decide (err = domain.ErrTodoNotFound)
      then (inr (mkStatus NotFound "todo not found"), db, w)
      else (inr (mkStatus Internal "failed to retrieve todo"), db, w)
    | inl todo =>
      if negb (auth.CanDelete userCtx todo)
      then (inr (mkStatus PermissionDenied "insufficient permissions"), db, w)
      else
        match domain.Repository.Delete (todov1.del_Id req) (auth.TenantID userCtx) db w with
        | (Some _, db, w) => (inr (mkStatus Internal "failed to delete todo"), db, w)
        | (None, db, w) => (inl (todov1.mkDeleteTodoResponse true), db, w)
        end
    end
  end.

End Handlers.

End app.

(** ** Package postgres

    Table [todos] is keyed by its primary key [id]; a row holds the thirteen
    columns a [domain.Todo] is written to and read from, and [deleted_at].
    A statement whose text is fixed is modelled by its effect on the table,
    next to its text; the statement of [List], assembled at run time, by the
    text and the arguments that are sent.  Statements are answered by the
    database: connection loss, deadlines and the schema's column checks are
    not part of the model, the primary key is. *)
Module postgres.

Record Row := mkRow { todo : domain.Todo; deleted_at : option Time }.

Abbreviation Table := (gmap string Row).

(** Every row is stored under the id it carries: the key of the table is
    the column [id]. *)
Definition wellKeyed (tbl : Table) : Prop :=
  forall id r, tbl !! id = Some r -> domain.ID (todo r) = id.

(** [WHERE id = $i AND tenant_id = $t AND deleted_at IS NULL]: the row the
    guard selects, if any ([id] is the primary key). *)
Definition liveRow (id tenantID : string) (tbl : Table) : option Row :=
  match tbl !! id with
  | Some r =>
    if String.eqb (domain.TenantID (todo r)) tenantID
       && bool_decide (deleted_at r = None)
    then Some r else None
  | None => None
  end.

(** [INSERT INTO todos (id, ..., version) VALUES ($1, ..., $13)] *)
Definition insertRow (t : domain.Todo) (tbl : Table) : DriverError + Table :=
  match tbl !! domain.ID t with
  | Some _ => inl (UniqueViolation "todos_pkey")
  | None => inr (<[domain.ID t := mkRow t None]> tbl)
  end.

Definition Create (t : domain.Todo) (tbl : Table) : option domain.error * Table :=
  match insertRow t tbl with
  | inl err => (Some (domain.Errorf "failed to create todo" err), tbl)
  | inr tbl' => (None, tbl')
  end.

Definition GetByID_query : string :=
  "SELECT id, title, description, status, priority, due_date, tags, owner_id, assigned_to, tenant_id, created_at, updated_at, version FROM todos WHERE id = $1 AND tenant_id = $2 AND deleted_at IS NULL".

Definition GetByID (id tenantID : string) (tbl : Table) : domain.Todo + domain.error :=
  match liveRow id tenantID tbl with
  | Some r => inl (todo r)
  | None => inr domain.ErrTodoNotFound
  end.

Definition Update_query : string :=
  "UPDATE todos SET title = $1, description = $2, status = $3, priority = $4, due_date = $5, tags = $6, assigned_to = $7, updated_at = $8, version = version + 1 WHERE id = $9 AND tenant_id = $10 AND version = $11 AND deleted_at IS NULL".

(** The [SET] list of [Update_query] applied to a stored row. *)
Definition Update_set (t : domain.Todo) (now : Time) (r : Row) : Row :=
  let s := todo r in
  mkRow {| domain.ID := domain.ID s;
           domain.Title := domain.Title t;
           domain.Description := domain.Description t;
           domain.Status := domain.Status t;
           domain.Priority := domain.Priority t;
           domain.DueDate := domain.DueDate t;
           domain.Tags := domain.Tags t;
           domain.OwnerID := domain.OwnerID s;
           domain.AssignedTo := domain.AssignedTo t;
           domain.TenantID := domain.TenantID s;
           domain.CreatedAt := domain.CreatedAt s;
           domain.UpdatedAt := now;
           domain.Version := domain.Version s + 1 |}
        (deleted_at r).

(** [Update]: the statement, then [rowsAffected == 0] answers
    [ErrVersionMismatch]. *)
Definition Update (t : domain.Todo) (tbl : Table) (w : World)
    : option domain.error * Table * World :=
  let '(now, w) := time_Now w in
  match liveRow (domain.ID t) (domain.TenantID t) tbl with
  | Some r =>
    if domain.Version (todo r) =? domain.Version t
    then (None, <[domain.ID t := Update_set t now r]> tbl, w)
    else (Some domain.ErrVersionMismatch, tbl, w)
  | None => (Some domain.ErrVersionMismatch, tbl, w)
  end.

Definition Delete_query : string :=
  "UPDATE todos SET deleted_at = $1, updated_at = $1 WHERE id = $2 AND tenant_id = $3 AND deleted_at IS NULL".

Definition Delete (id tenantID : string) (tbl : Table) (w : World)
    : option domain.error * Table * World :=
  let '(now, w) := time_Now w in
  match liveRow id tenantID tbl with
  | Some r =>
    (None, <[id := mkRow (domain.set_UpdatedAt now (todo r)) (Some now)]> tbl, w)
  | None => (Some domain.ErrTodoNotFound, tbl, w)
  end.

Definition UpdateStatus_query : string :=
  "UPDATE todos SET status = $1, updated_at = $2, version = version + 1 WHERE id = $3 AND tenant_id = $4 AND version = $5 AND deleted_at IS NULL RETURNING id, title, description, status, priority, due_date, tags, owner_id, assigned_to, tenant_id, created_at, updated_at, version".

(** The [SET] list of [UpdateStatus_query] applied to a stored row. *)
Definition UpdateStatus_set (status : domain.TodoStatus) (now : Time) (r : Row) : Row :=
  let s := todo r in
  mkRow (domain.set_Version (domain.Version s + 1)
          (domain.set_UpdatedAt now (domain.set_Status status s)))
        (deleted_at r).

(** [UpdateStatus]: the row scanned from [RETURNING], or [ErrVersionMismatch]
    for [sql.ErrNoRows]. *)
Definition UpdateStatus (id tenantID : string) (status : domain.TodoStatus)
    (version : Z) (tbl : Table) (w : World)
    : (domain.Todo + domain.error) * Table * World :=
  let '(now, w) := time_Now w in
  match liveRow id tenantID tbl with
  | Some r =>
    if domain.Version (todo r) =? version
    then let r' := UpdateStatus_set status now r in
         (inl (todo r'), <[id := r']> tbl, w)
    else (inr domain.ErrVersionMismatch, tbl, w)
  | None => (inr domain.ErrVersionMismatch, tbl, w)
  end.

(** A connection with at most one open transaction: what is committed, and
    what the open transaction sees and has written so far. *)
Record Conn := mkConn { committed : Table; pending : option Table }.

(** [r.db.BeginTx(ctx, nil)] *)
Definition BeginTx (tbl : Table) : Conn := mkConn tbl (Some tbl).

(** [stmt.ExecContext(ctx, ...)] of the insert prepared on the transaction *)
Definition tx_Exec (t : domain.Todo) (c : Conn) : option DriverError * Conn :=
  match pending c with
  | None => (Some TxDone, c)
  | Some seen =>
    match insertRow t seen with
    | inl err => (Some err, c)
    | inr seen' => (None, mkConn (committed c) (Some seen'))
    end
  end.

(** [tx.Commit()] *)
Definition Commit (c : Conn) : option DriverError * Conn :=
  match pending c with
  | None => (Some TxDone, c)
  | Some seen => (None, mkConn seen None)
  end.

(** [tx.Rollback()]; after a commit it changes nothing. *)
Definition Rollback (c : Conn) : Conn := mkConn (committed c) None.

(** The loop of [BatchCreate]: the first insert that is refused returns. *)
Fixpoint rangeTodos (todos : list domain.Todo) (c : Conn) : option domain.error * Conn :=
  match todos with
  | [] => (None, c)
  | t :: rest =>
    match tx_Exec t c with
    | (Some err, c') =>
      (Some (domain.Errorf ("failed to insert todo " +:+ domain.ID t) err), c')
    | (None, c') => rangeTodos rest c'
    end
  end.

(** [BatchCreate]: [defer tx.Rollback()] runs on every way out. *)
Definition BatchCreate (todos : list domain.Todo) (tbl : Table)
    : option domain.error * Table :=
  let c := BeginTx tbl in
  match rangeTodos todos c with
  | (Some err, c) => (Some err, committed (Rollback c))
  | (None, c) =>
    match Commit c with
    | (Some err, c) =>
      (Some (domain.Errorf "failed to commit transaction" err), committed (Rollback c))
    | (None, c) => (None, committed (Rollback c))
    end
  end.

(** A value handed to the driver next to the statement text, to be bound
    to a placeholder [$n]. *)
Inductive Arg : Type :=
| ArgString (s : string)
| ArgInt (z : Z)
| ArgTime (t : Time)
| ArgIntArray (l : list Z)
| ArgStringArray (l : list string).

(** The three variables [buildWhereClause] grows. *)
Record Clause := mkClause {
  conditions : list string;
  args : list Arg;
  argCount : nat
}.

(** [argCount++; conditions = append(conditions, fmt.Sprintf(format,
    argCount)); args = append(args, v)], with [format n] the formatted
    text for placeholder number [n]. *)
Definition addCondition (format : nat -> string) (v : Arg) (c : Clause) : Clause :=
  let n := S (argCount c) in
  mkClause (conditions c ++ [format n]) (args c ++ [v]) n.

Definition whenSet {A : Type} (o : option A) (format : nat -> string)
    (v : A -> Arg) (c : Clause) : Clause :=
  match o with
  | Some x => addCondition format (v x) c
  | None => c
  end.

Definition whenNonEmpty {A : Type} (l : list A) (format : nat -> string)
    (v : list A -> Arg) (c : Clause) : Clause :=
  if (0 <? length l)%nat then addCondition format (v l) c else c.

(** The conditions and arguments of [buildWhereClause] before they are
    joined. *)
Definition whereClause (filter : domain.ListFilter) : Clause :=
  let c := mkClause ["tenant_id = $1"; "delete_at IS NULL"]
                    [ArgString (domain.f_TenantID filter)] 1 in
  let c := whenSet (domain.f_OwnerID filter)
             (fun n => "owner_id = $" +:+ pretty n) ArgString c in
  let c := whenSet (domain.f_AssignedTo filter)
             (fun n => "assigned_to = $" +:+ pretty n) ArgString c in
  let c := whenNonEmpty (domain.Statuses filter)
             (fun n => "status = ANY($" +:+ pretty n +:+ ")") ArgIntArray c in
  let c := whenNonEmpty (domain.Priorities filter)
             (fun n => "priority = ANY($" +:+ pretty n +:+ ")") ArgIntArray c in
  let c := whenNonEmpty (domain.f_Tags filter)
             (fun n => "tags && $" +:+ pretty n) ArgStringArray c in
  let c := whenSet (domain.DueDateFrom filter)
             (fun n => "due_date >= $" +:+ pretty n) ArgTime c in
  let c := whenSet (domain.DueDateTo filter)
             (fun n => "due_date <= $" +:+ pretty n) ArgTime c in
  let c := whenSet (domain.SearchQuery filter)
             (fun n => "(title ILIKE $" +:+ pretty n +:+ " OR description ILIKE $"
                       +:+ pretty n +:+ ")")
             (fun q => ArgString ("%" +:+ q +:+ "%")) c in
  c.

(** [strings.Join(conditions, " AND "), args] *)
Definition buildWhereClause (filter : domain.ListFilter) : string * list Arg :=
  let c := whereClause filter in
  (String.concat " AND " (conditions c), args c).

Definition validSortFields : gmap string bool :=
  <["created_at" := true]> (<["updated_at" := true]> (<["due_date" := true]>
  (<["priority" := true]> (<["status" := true]> (<["title" := true]> ∅))))).

(** A missing key of a [map[string]bool] reads as [false]. *)
Definition buildOrderByClause (filter : domain.ListFilter) : string :=
  let sortBy :=
    if default false (validSortFields !! domain.SortBy filter)
    then domain.SortBy filter else "created_at" in
  let order := if domain.SortAscending filter then "ASC" else "DESC" in
  "ORDER BY " +:+ sortBy +:+ " " +:+ order.

(** A statement as it goes to the driver. *)
Record Statement := mkStatement { text : string; bound : list Arg }.

(** [countQuery] of [List] with its arguments. *)
Definition List_countQuery (filter : domain.ListFilter) : Statement :=
  let '(where_, args) := buildWhereClause filter in
  mkStatement ("SELECT COUNT(*) FROM todos WHERE " +:+ where_) args.

(** [offset := (filter.Page - 1) * filter.PageSize] on [int]. *)
Definition List_offset (filter : domain.ListFilter) : Z :=
  wrap64 (wrap64 (domain.Page filter - 1) * domain.PageSize filter).

(** [query] of [List] with its arguments: the page of rows.  It is sent
    once the count has been answered.  The raw string's line breaks and
    indentation are written as single spaces. *)
Definition List_query (filter : domain.ListFilter) : Statement :=
  let '(where_, args) := buildWhereClause filter in
  let orderBy := buildOrderByClause filter in
  let offset := List_offset filter in
  mkStatement
    ("SELECT id, title, description, status, priority, due_date, tags, owner_id, assigned_to, tenant_id, created_at, updated_at, version FROM todos WHERE "
     +:+ where_ +:+ " " +:+ orderBy
     +:+ " LIMIT $" +:+ pretty (length args + 1)%nat
     +:+ " OFFSET $" +:+ pretty (length args + 2)%nat)
    (args ++ [ArgInt (domain.PageSize filter); ArgInt offset]).

(** [strings.Contains(s, substr)] *)
Definition Contains (s substr : string) : bool :=
  bool_decide (is_Some (String.index 0 substr s)).

(** The columns of table [todos], from the migration that creates it. *)
Definition todos_columns : list string :=
  ["id"; "title"; "description"; "status"; "priority"; "due_date"; "tags";
   "owner_id"; "assigned_to"; "tenant_id"; "created_at"; "updated_at";
   "deleted_at"; "version"].

#[global] Instance PostgresRepository : domain.Repository.t Table := {|
  domain.Repository.Create := Create;
  domain.Repository.GetByID := GetByID;
  domain.Repository.Update := Update;
  domain.Repository.Delete := Delete;
  domain.Repository.UpdateStatus := UpdateStatus;
  domain.Repository.BatchCreate := BatchCreate
|}.

End postgres.

(** ** Package interceptors *)
Module interceptors.

(** A value of interface type [any] as a decoded token holds it: [nil], a
    boolean, a number (the bits of its [float64]), a string, a slice of such
    values or a map from strings to them. *)
#[warnings="-register-all"]
Inductive any : Type :=
| Nil
| Bool (b : bool)
| Float64 (bits : Z)
| Str (s : string)
| Slice (l : list any)
| Map (m : list (string * any)).

(** [role.(string)] with its [ok]. *)
Definition asString (v : any) : option string :=
  match v with
  | Str s => Some s
  | _ => None
  end.

(** [extractRoles]: [nil] and anything that is not a slice give the empty
    slice; of a slice the strings are kept, in order. *)
Definition extractRoles (rolesInterface : any) : list string :=
  match rolesInterface with
  | Slice rolesSlice => omap asString rolesSlice
  | _ => []
  end.

(** gRPC metadata: [map[string][]string]; [md.Get(k)] of a missing key is
    empty. *)
Abbreviation MD := (gmap string (list string)).

Definition md_Get (md : MD) (k : string) : list string := default [] (md !! k).

(** What the interceptors read from and add to the request context: the
    incoming metadata, if any, and the user context once attached. *)
Record Context := mkContext {
  incoming : option MD;
  userContext : option auth.UserContext
}.

(** [auth.ContextWithUserContext(ctx, userCtx)] *)
Definition ContextWithUserContext (ctx : Context) (u : auth.UserContext) : Context :=
  mkContext (incoming ctx) (Some u).

(** A call either returns or panics. *)
Inductive Outcome (A : Type) : Type :=
| Returned (a : A)
| Panicked.
Arguments Returned {A} a.
Arguments Panicked {A}.

Definition publicMethods : gmap string bool :=
  <["/grpc.health.v1.Health/Check" := true]>
  (<["/grpc.health.v1.Health/Watch" := true]> ∅).

(** [strings.TrimPrefix(s, prefix)] *)
Definition TrimPrefix (s prefix : string) : string :=
  if String.prefix prefix s
  then String.substring (String.length prefix) (String.length s - String.length prefix) s
  else s.

(** The claims of a parsed token: [jwt.MapClaims], or some other claims
    type. *)
Inductive Claims : Type :=
| MapClaims (m : gmap string any)
| OtherClaims.

Definition requestIDKey : string := "x-request-id".

(** [getOrGenerateRequestID] *)
Definition getOrGenerateRequestID (ctx : Context) (w : World) : string * World :=
  match incoming ctx with
  | None => uuid_New w
  | Some md =>
    match md_Get md requestIDKey with
    | id :: _ => (id, w)
    | [] => uuid_New w
    end
  end.

Section Unary.
Context {Req Resp : Type}.

(** [grpc.UnaryHandler]: the response or the status error. *)
Definition UnaryHandler := Context -> Req -> Outcome (Resp + app.Status).

(** [jwt.Parse(tokenString, keyFunc)] of the JWT library, with the secret
    the key function hands it: [None] stands for [err != nil ||
    !token.Valid], otherwise the claims of the token. *)
Variable jwt_Parse : string -> string -> option Claims.

Definition unauthenticated (msg : string) : Outcome (Resp + app.Status) :=
  Returned (inr (app.mkStatus app.Unauthenticated msg)).

(** [AuthInterceptor(jwtSecret)] applied to a call of [FullMethod].  The
    type assertions [claims[k].(string)] panic on a missing key or a value
    that is not a string. *)
Definition AuthInterceptor (jwtSecret : string) (FullMethod : string)
    (ctx : Context) (req : Req) (handler : UnaryHandler)
    : Outcome (Resp + app.Status) :=
  if default false (publicMethods !! FullMethod) then handler ctx req
  else
    match incoming ctx with
    | None => unauthenticated "missing metadata"
    | Some md =>
      match md_Get md "authorization" with
      | [] => unauthenticated "missing authorization header"
      | header :: _ =>
        let tokenString := TrimPrefix header "Bearer " in
        if String.eqb tokenString header
        then unauthenticated "invalid authorization header format"
        else
          match jwt_Parse jwtSecret tokenString with
          | None => unauthenticated "invalid token"
          | Some OtherClaims => unauthenticated "invalid token claims"
          | Some (MapClaims claims) =>
            match claims !! "user_id" with
            | Some (Str userID) =>
              match claims !! "tenant_id" with
              | Some (Str tenantID) =>
                let userCtx :=
                  auth.mkUserContext userID tenantID
                    (extractRoles (default Nil (claims !! "roles"))) in
                handler (ContextWithUserContext ctx userCtx) req
              | _ => Panicked
              end
            | _ => Panicked
            end
          end
      end
    end.

(** [RecoveryInterceptor]: a panic below is recovered and answered with an
    internal error. *)
Definition RecoveryInterceptor (ctx : Context) (req : Req) (handler : UnaryHandler)
    : Outcome (Resp + app.Status) :=
  match handler ctx req with
  | Returned r => Returned r
  | Panicked => Returned (inr (app.mkStatus app.Internal "internal server error"))
  end.

End Unary.

End interceptors.

(** ** Package config *)
Module config.

(** [time.Duration]: nanoseconds. *)
Definition Duration := Z.

Record Config := mkConfig {
  Environment : string;
  Port : Z;
  MetricsPort : Z;
  DatabaseURL : string;
  MigrationsPath : string;
  MaxOpenConns : Z;
  MaxIdleConns : Z;
  ConnMaxLifetime : Duration;
  ConnMaxIdleTime : Duration;
  JWTSecret : string;
  JWTExpiration : Duration;
  RateLimitRPS : Z;
  RateLimitBurst : Z;
  TLSEnabled : bool;
  TLSCertFile : string;
  TLSKeyFile : string;
  JaegerEndpoint : string;
  PrometheusNamespace : string;
  LogLevel : string;
  LogFormat : string;
  ShutdownTimeout : Duration;
  EnableMetrics : bool;
  EnableTracing : bool;
  EnableHealthCheck : bool;
  EnableReflection : bool;
  AWSRegion : string;
  SecretsManagerName : string;
  UseSecretsManager : bool;
  CacheEnabled : bool;
  CacheTTL : Duration;
  CacheMaxSize : Z;
  RequestTimeout : Duration;
  DatabaseTimeout : Duration
}.

(** What [os.Stat] answers for a path: the file is there, the error is one
    for which [os.IsNotExist] holds, or it is another error. *)
Inductive StatResult : Set := Found | NotExist | OtherStatError.

(** [os.IsNotExist(err)] on the error of [os.Stat]. *)
Definition IsNotExist (r : StatResult) : bool :=
  match r with
  | NotExist => true
  | _ => false
  end.

Definition validLogLevels : gmap string bool :=
  <["debug" := true]> (<["info" := true]> (<["warn" := true]> (<["error" := true]> ∅))).

(** [Validate]; the error is the text of the [fmt.Errorf], [stat] is the
    file system as [os.Stat] sees it. *)
Definition Validate (stat : string -> StatResult) (c : Config) : option string :=
  if String.eqb (DatabaseURL c) "" then Some "DATABASE_URL is required"
  else if String.eqb (Environment c) "production" && String.eqb (JWTSecret c) ""
  then Some "JWT_SECRET is required in production"
  else
    let tls :=
      if TLSEnabled c then
        if String.eqb (TLSCertFile c) "" || String.eqb (TLSKeyFile c) ""
        then Some "TLS_CERT_FILE and TLS_KEY_FILE are required when TLS is enabled"
        else if IsNotExist (stat (TLSCertFile c))
        then Some ("TLS certificate file not found: " +:+ TLSCertFile c)
        else if IsNotExist (stat (TLSKeyFile c))
        then Some ("TLS key file not found: " +:+ TLSKeyFile c)
        else None
      else None in
    match tls with
    | Some err => Some err
    | None =>
      if (Port c <? 1) || (65535 <? Port c)
      then Some ("invalid port: " +:+ pretty (Port c))
      else if (MetricsPort c <? 1) || (65535 <? MetricsPort c)
      then Some ("invalid metrics port: " +:+ pretty (MetricsPort c))
      else if MaxOpenConns c <? MaxIdleConns c
      then Some ("max_open_conns (" +:+ pretty (MaxOpenConns c)
                 +:+ ") must be >= max_idle_conns (" +:+ pretty (MaxIdleConns c) +:+ ")")
      else if negb (default false (validLogLevels !! LogLevel c))
      then Some ("invalid log level: " +:+ LogLevel c
                 +:+ " (valid: debug, info, warn, error)")
      else if negb (String.eqb (LogFormat c) "json")
              && negb (String.eqb (LogFormat c) "console")
      then Some ("invalid log format: " +:+ LogFormat c +:+ " (valid: json, console)")
      else None
    end.

Definition IsDevelopment (c : Config) : bool :=
  String.eqb (Environment c) "development" || String.eqb (Environment c) "dev".

Definition IsProduction (c : Config) : bool :=
  String.eqb (Environment c) "production" || String.eqb (Environment c) "prod".

(** [getEnv], with the process environment as [os.Getenv] reads it: an
    unset variable reads as the empty string. *)
Definition Getenv (environ : gmap string string) (key : string) : string :=
  default "" (environ !! key).

Definition getEnv (environ : gmap string string) (key defaultValue : string) : string :=
  let value := Getenv environ key in
  if negb (String.eqb value "") then value else defaultValue.

End config.

(** ** What the specification speaks of *)
Module spec.

(** The transition table of the task's status, row by row. *)
Inductive Allowed : domain.TodoStatus -> domain.TodoStatus -> Prop :=
| pending_to_in_progress : Allowed domain.StatusPending domain.StatusInProgress
| pending_to_archived : Allowed domain.StatusPending domain.StatusArchived
| in_progress_to_pending : Allowed domain.StatusInProgress domain.StatusPending
| in_progress_to_completed : Allowed domain.StatusInProgress domain.StatusCompleted
| in_progress_to_archived : Allowed domain.StatusInProgress domain.StatusArchived
| completed_to_pending : Allowed domain.StatusCompleted domain.StatusPending
| completed_to_archived : Allowed domain.StatusCompleted domain.StatusArchived
| archived_to_pending : Allowed domain.StatusArchived domain.StatusPending.

(** A byte [10xxxxxx] continues a character of a UTF-8 text; every other
    byte starts one. *)
Definition continues (b : ascii) : bool :=
  let n := nat_of_ascii b in (128 <=? n)%nat && (n <? 192)%nat.

(** The number of characters of a UTF-8 text: the unit in which the
    specification, the text of [ErrTitleTooLong] and the column type
    [VARCHAR(200)] measure a title. *)
Fixpoint characters (s : string) : nat :=
  match s with
  | EmptyString => 0
  | String b rest => ((if continues b then 0 else 1) + characters rest)%nat
  end.

(** [n] copies of a text. *)
Fixpoint copies (n : nat) (s : string) : string :=
  match n with
  | O => ""
  | S k => s +:+ copies k s
  end.

(** A title of 101 characters: the letter e with an acute accent (U+00E9,
    bytes C3 A9) 101 times. *)
Definition e_acute : string :=
  String (ascii_of_nat 195) (String (ascii_of_nat 169) EmptyString).
Definition accented_title : string := copies 101 e_acute.

(** The fields a mask may name and the mutator the specification attaches
    to each, with the value the request carries for it; [None] for a name
    that is not a field. *)
Definition namedMutator (updates : todov1.Todo) (path : string) : option app.Mutation :=
  if String.eqb path "title" then
    Some (domain.UpdateTitle (todov1.Title updates))
  else if String.eqb path "description" then
    Some (domain.UpdateDescription (todov1.Description updates))
  else if String.eqb path "priority" then
    Some (domain.UpdatePriority (app.mapProtoPriority (todov1.Priority updates)))
  else if String.eqb path "status" then
    Some (domain.UpdateStatus (app.mapProtoStatus (todov1.Status updates)))
  else if String.eqb path "due_date" then
    Some (domain.SetDueDate (todov1.DueDate updates))
  else if String.eqb path "assigned_to" then
    Some (domain.AssignTo
            (if String.eqb (todov1.AssignedTo updates) "" then None
             else Some (todov1.AssignedTo updates)))
  else if String.eqb path "tags" then
    Some (domain.AddTags (todov1.Tags updates))
  else None.

(** The same, except that a due date, an assignee or a tag list named by
    the mask but not carried by the request (unset, empty) has no mutator
    to run. *)
Definition carriedMutator (updates : todov1.Todo) (path : string) : option app.Mutation :=
  if String.eqb path "due_date" && bool_decide (todov1.DueDate updates = None) then None
  else if String.eqb path "assigned_to" && String.eqb (todov1.AssignedTo updates) "" then None
  else if String.eqb path "tags" && bool_decide (todov1.Tags updates = []) then None
  else namedMutator updates path.

(** Applying the fields named by a list of paths, in order, with the
    mutators [M] attaches to them: a name without a mutator is passed over,
    the first mutator that fails ends the run with its error, and the run
    is over with [nil] when the list is. *)
Inductive Applies (M : string -> option app.Mutation)
  : list string -> domain.Todo -> World
    -> option domain.error * domain.Todo * World -> Prop :=
| applies_done t w :
    Applies M [] t w (None, t, w)
| applies_ignored path rest t w r :
    M path = None ->
    Applies M rest t w r ->
    Applies M (path :: rest) t w r
| applies_failed path rest t w m err t' w' :
    M path = Some m -> m t w = (Some err, t', w') ->
    Applies M (path :: rest) t w (Some err, t', w')
| applies_applied path rest t w m t' w' r :
    M path = Some m -> m t w = (None, t', w') ->
    Applies M rest t' w' r ->
    Applies M (path :: rest) t w r.

(** The paths a request stands for: without a mask, or with an empty one,
    title, description and priority. *)
Definition effectivePaths (mask : option todov1.FieldMask) : list string :=
  match mask with
  | None => ["title"; "description"; "priority"]
  | Some m =>
    match todov1.Paths m with
    | [] => ["title"; "description"; "priority"]
    | paths => paths
    end
  end.

(** A todo with a due date, and a request that names [due_date] in its mask
    and carries no due date. *)
Definition dated_todo : domain.Todo :=
  {| domain.ID := "a1"; domain.Title := "Ship v1"; domain.Description := "";
     domain.Status := domain.StatusPending; domain.Priority := domain.PriorityMedium;
     domain.DueDate := Some 900; domain.Tags := []; domain.OwnerID := "u1";
     domain.AssignedTo := None; domain.TenantID := "t1";
     domain.CreatedAt := 100; domain.UpdatedAt := 100; domain.Version := 1 |}.

Definition no_due_date : todov1.Todo :=
  {| todov1.Id := "a1"; todov1.Title := ""; todov1.Description := "";
     todov1.Status := todov1.TodoStatus_TODO_STATUS_UNSPECIFIED;
     todov1.Priority := todov1.TodoPriority_TODO_PRIORITY_UNSPECIFIED;
     todov1.DueDate := None; todov1.Tags := []; todov1.OwnerId := "";
     todov1.AssignedTo := ""; todov1.TenantId := "";
     todov1.CreatedAt := 0; todov1.UpdatedAt := 0; todov1.Version := 0 |}.

Definition due_date_mask : option todov1.FieldMask :=
  Some (todov1.mkFieldMask ["due_date"]).

(** A world whose clock shows 1000, 1001, ... *)
Definition world0 : World :=
  {| clock := fun n => 1000 + Z.of_nat n; ticks := 0;
     uuids := fun n => "id-" +:+ pretty n; drawn := 0 |}.

(** Fields that no mutator of the default update writes. *)
Definition maskOnly (t : domain.Todo) :=
  (domain.Status t, domain.DueDate t, domain.AssignedTo t, domain.Tags t).

(** The table with every todo of a batch stored as a live row. *)
Fixpoint withBatch (todos : list domain.Todo) (tbl : postgres.Table) : postgres.Table :=
  match todos with
  | [] => tbl
  | t :: rest => withBatch rest (<[domain.ID t := postgres.mkRow t None]> tbl)
  end.

(** No todo of the batch has the id of a stored row or of another todo of
    the batch. *)
Definition freshBatch (todos : list domain.Todo) (tbl : postgres.Table) : Prop :=
  NoDup (domain.ID <$> todos) /\ Forall (fun t => tbl !! domain.ID t = None) todos.

(** Which optional fields of a filter are populated. *)
Definition populated (f : domain.ListFilter) : list bool :=
  [bool_decide (is_Some (domain.f_OwnerID f));
   bool_decide (is_Some (domain.f_AssignedTo f));
   bool_decide (domain.Statuses f <> []);
   bool_decide (domain.Priorities f <> []);
   bool_decide (domain.f_Tags f <> []);
   bool_decide (is_Some (domain.DueDateFrom f));
   bool_decide (is_Some (domain.DueDateTo f));
   bool_decide (is_Some (domain.SearchQuery f))].

Definition count_true (l : list bool) : nat := length (filter (fun b => b = true) l).

(** A filter with given populated fields and fixed values in them. *)
Definition shaped (sh : list bool) : domain.ListFilter :=
  let on i := nth i sh false in
  {| domain.f_TenantID := "";
     domain.f_OwnerID := if on 0%nat then Some "" else None;
     domain.f_AssignedTo := if on 1%nat then Some "" else None;
     domain.Statuses := if on 2%nat then [0] else [];
     domain.Priorities := if on 3%nat then [0] else [];
     domain.f_Tags := if on 4%nat then [""] else [];
     domain.DueDateFrom := if on 5%nat then Some 0 else None;
     domain.DueDateTo := if on 6%nat then Some 0 else None;
     domain.SearchQuery := if on 7%nat then Some "" else None;
     domain.Page := 0; domain.PageSize := 0; domain.SortBy := "";
     domain.SortAscending := false |}.

(** The allow-list of sort fields. *)
Definition sortFields : list string :=
  ["created_at"; "updated_at"; "due_date"; "priority"; "status"; "title"].

Definition direction (ascending : bool) : string := if ascending then "ASC" else "DESC".

Definition bogus_ascending : domain.ListFilter :=
  {| domain.f_TenantID := "t1"; domain.f_OwnerID := None; domain.f_AssignedTo := None;
     domain.Statuses := []; domain.Priorities := []; domain.f_Tags := [];
     domain.DueDateFrom := None; domain.DueDateTo := None; domain.SearchQuery := None;
     domain.Page := 1; domain.PageSize := 20; domain.SortBy := "bogus";
     domain.SortAscending := true |}.

Definition oversized_page : domain.ListFilter :=
  {| domain.f_TenantID := "t1"; domain.f_OwnerID := None; domain.f_AssignedTo := None;
     domain.Statuses := []; domain.Priorities := []; domain.f_Tags := [];
     domain.DueDateFrom := None; domain.DueDateTo := None; domain.SearchQuery := None;
     domain.Page := 0; domain.PageSize := 150; domain.SortBy := "";
     domain.SortAscending := false |}.

(** A user of tenant t1, a table holding [dated_todo], and a request to
    retitle it. *)
Definition sample_user : auth.UserContext :=
  {| auth.UserID := "u1"; auth.TenantID := "t1"; auth.Roles := ["user"] |}.

Definition sample_table : postgres.Table :=
  {[ "a1" := postgres.mkRow dated_todo None ]}.

Definition retitle_request : todov1.UpdateTodoRequest :=
  {| todov1.req_Id := "a1";
     todov1.req_Todo :=
       {| todov1.Id := "a1"; todov1.Title := "Ship v2"; todov1.Description := "";
          todov1.Status := todov1.TodoStatus_TODO_STATUS_UNSPECIFIED;
          todov1.Priority := todov1.TodoPriority_TODO_PRIORITY_UNSPECIFIED;
          todov1.DueDate := None; todov1.Tags := []; todov1.OwnerId := "";
          todov1.AssignedTo := ""; todov1.TenantId := "";
          todov1.CreatedAt := 0; todov1.UpdatedAt := 0; todov1.Version := 0 |};
     todov1.UpdateMask := Some (todov1.mkFieldMask ["title"]) |}.

(** [dated_todo] once the applier has run the request on it. *)
Definition retitled : option domain.error * domain.Todo * World :=
  app.applyFieldMaskUpdates (todov1.req_Todo retitle_request)
      (todov1.UpdateMask retitle_request) dated_todo world0.


(** The todo of the scenario of the specification, as constructed in
    [world0]. *)
Definition ship_v1 : domain.Todo :=
  {| domain.ID := "id-0"; domain.Title := "Ship v1"; domain.Description := "";
     domain.Status := domain.StatusPending; domain.Priority := domain.PriorityMedium;
     domain.DueDate := None; domain.Tags := []; domain.OwnerID := "u1";
     domain.AssignedTo := None; domain.TenantID := "t1";
     domain.CreatedAt := 1000; domain.UpdatedAt := 1000; domain.Version := 1 |}.

(** A copy of a todo under another id. *)
Definition with_id (id : string) (t : domain.Todo) : domain.Todo :=
  domain.mkTodo id (domain.Title t) (domain.Description t) (domain.Status t)
    (domain.Priority t) (domain.DueDate t) (domain.Tags t) (domain.OwnerID t)
    (domain.AssignedTo t) (domain.TenantID t) (domain.CreatedAt t)
    (domain.UpdatedAt t) (domain.Version t).

End spec.

(** * Properties *)

(** ** Facts about machine integers *)

Lemma wrap64_small (z : Z) : in_int64 z -> wrap64 z = z.
Proof.
  unfold in_int64, min_int64, max_int64, wrap64. intros H.
  rewrite Z.mod_small; lia.
Qed.

Lemma wrap64_range (z : Z) : in_int64 (wrap64 z).
Proof.
  unfold in_int64, min_int64, max_int64, wrap64.
  pose proof (Z.mod_pos_bound (z + 2 ^ 63) (2 ^ 64) ltac:(lia)). lia.
Qed.

Lemma wrap64_add_l (a b : Z) : wrap64 (wrap64 a + b) = wrap64 (a + b).
Proof.
  unfold wrap64. f_equal.
  replace ((a + 2 ^ 63) mod 2 ^ 64 - 2 ^ 63 + b + 2 ^ 63)
    with ((a + 2 ^ 63) mod 2 ^ 64 + b) by lia.
  rewrite Z.add_mod_idemp_l by lia. f_equal. lia.
Qed.

(** ** The status state machine *)

Lemma isValidStatusTransition_cases (from to : Z) :
  domain.isValidStatusTransition from to =
    if from =? 1 then (to =? 2) || (to =? 4)
    else if from =? 2 then (to =? 4) || (to =? 3) || (to =? 1)
    else if from =? 3 then (to =? 4) || (to =? 1)
    else if from =? 4 then (to =? 1)
    else false.
Proof.
  unfold domain.isValidStatusTransition, domain.validTransitions.
  unfold domain.StatusPending, domain.StatusInProgress, domain.StatusCompleted, domain.StatusArchived.
  repeat (rewrite lookup_insert; case_decide as E;
          [ subst from; cbn -[Z.eqb];
            repeat match goal with
                   | |- context [?a =? ?b] => destruct (Z.eqb_spec a b)
                   end; first [reflexivity | lia]
          | apply Z.eqb_neq in E; rewrite Z.eqb_sym in E; rewrite E; clear E ]).
  rewrite lookup_empty. reflexivity.
Qed.

Lemma isValidStatusTransition_Allowed (from to : Z) :
  domain.isValidStatusTransition from to = true <-> spec.Allowed from to.
Proof.
  rewrite isValidStatusTransition_cases. split.
  - repeat match goal with
           | |- context [?a =? ?b] => destruct (Z.eqb_spec a b); subst
           end; cbn; intros H; try discriminate H; constructor.
  - destruct 1; reflexivity.
Qed.

Lemma Allowed_irreflexive (s : Z) : ~ spec.Allowed s s.
Proof. inversion 1. Qed.

(** C4. [UpdateStatus] of the aggregate succeeds exactly when the pair
    (current status, requested status) is a row of the transition table; then
    the status is the requested one and the version is incremented.  For
    every other pair, whatever the two integers are, it answers
    [ErrInvalidStatusTransition] and leaves the todo (status, version,
    updated-at and all) and the clock as they were.  No status may move to
    itself. *)
Theorem UpdateStatus_transition_table (t : domain.Todo) (w : World) (to : domain.TodoStatus) :
  let '(err, t', w') := domain.UpdateStatus to t w in
  (err = None <-> spec.Allowed (domain.Status t) to) /\
  (err = None ->
     domain.Status t' = to /\
     domain.Version t' = incr64 (domain.Version t) /\
     domain.UpdatedAt t' = fst (time_Now w)) /\
  (err <> None ->
     err = Some domain.ErrInvalidStatusTransition /\ t' = t /\ w' = w) /\
  ~ spec.Allowed to to.
Proof.
  unfold domain.UpdateStatus.
  pose proof (isValidStatusTransition_Allowed (domain.Status t) to) as HA.
  destruct (domain.isValidStatusTransition (domain.Status t) to); cbn.
  - split; [|split; [|split]]; auto using Allowed_irreflexive.
    + tauto.
    + intros H; congruence.
  - split; [|split; [|split]]; auto using Allowed_irreflexive.
    + split; [discriminate|]. intros H. apply HA in H. discriminate.
    + discriminate.
Qed.

(** ** Tags *)

(** C9. [AddTags] fails exactly when the number of tags held plus the number
    of tags given exceeds 20; it then answers [ErrTooManyTags] and leaves the
    todo (tags, version, updated-at) and the clock untouched.  Otherwise the
    given tags are appended, in order and as they are, behind the tags already
    held. *)
Theorem AddTags_limit (t : domain.Todo) (tags : list string) (w : World) :
  let '(err, t', w') := domain.AddTags tags t w in
  (err <> None <-> (20 < length (domain.Tags t) + length tags)%nat) /\
  (err <> None -> err = Some domain.ErrTooManyTags /\ t' = t /\ w' = w) /\
  (err = None ->
     domain.Tags t' = (domain.Tags t ++ tags)%list /\
     domain.Version t' = incr64 (domain.Version t) /\
     domain.UpdatedAt t' = fst (time_Now w)).
Proof.
  unfold domain.AddTags.
  destruct (Nat.ltb_spec 20 (length (domain.Tags t) + length tags)) as [Hgt | Hle]; cbn.
  - repeat split; auto; try discriminate; congruence.
  - repeat split; auto; try congruence; try lia.
Qed.

(** ** Construction *)

Lemma validateTitle_None (title : string) :
  domain.validateTitle title = None <-> title <> "" /\ (len title <= 200)%nat.
Proof.
  unfold domain.validateTitle.
  destruct (String.eqb_spec title ""); [split; [discriminate | tauto] |].
  destruct (Nat.ltb_spec 200 (len title)); split; try discriminate; try tauto; try lia.
Qed.

Lemma NewTodo_succeeds_iff (title description ownerID tenantID : string)
    (priority : domain.TodoPriority) (w : World) :
  (exists t, fst (domain.NewTodo title description ownerID tenantID priority w) = inl t)
  <-> title <> "" /\ (len title <= 200)%nat /\ ownerID <> "" /\ tenantID <> "".
Proof.
  unfold domain.NewTodo.
  pose proof (validateTitle_None title) as HT.
  destruct (domain.validateTitle title).
  - split; [intros [t H]; discriminate H |]. intros (? & ? & _).
    assert (Some e = None) by (apply HT; auto). discriminate.
  - destruct (String.eqb_spec ownerID ""); [split; [intros [t H]; discriminate H | tauto] |].
    destruct (String.eqb_spec tenantID ""); [split; [intros [t H]; discriminate H | tauto] |].
    cbn. split; [| eauto]. intros _. destruct HT as [HT _]. specialize (HT eq_refl). tauto.
Qed.

Lemma NewTodo_fresh (title description ownerID tenantID : string)
    (priority : domain.TodoPriority) (w : World) (t : domain.Todo) :
  fst (domain.NewTodo title description ownerID tenantID priority w) = inl t ->
  domain.Version t = 1 /\ domain.Status t = domain.StatusPending /\
  domain.Tags t = [] /\ domain.UpdatedAt t = domain.CreatedAt t /\
  domain.Title t = title /\ domain.OwnerID t = ownerID /\ domain.TenantID t = tenantID.
Proof.
  unfold domain.NewTodo.
  destruct (domain.validateTitle title); [discriminate |].
  destruct (String.eqb ownerID ""); [discriminate |].
  destruct (String.eqb tenantID ""); [discriminate |].
  cbn. intros [= <-]. cbn. tauto.
Qed.

Lemma characters_le_len (s : string) : (spec.characters s <= len s)%nat.
Proof.
  induction s as [| b s IH]; cbn; [lia |].
  unfold len in IH. destruct (spec.continues b); lia.
Qed.

(** C10. The title limit of [NewTodo] is 200 bytes, not 200 characters: a
    title of 101 two-byte characters, with owner and tenant given, is refused
    with [ErrTitleTooLong] ("title exceeds 200 characters"). *)
Theorem NewTodo_title_limit_is_in_bytes :
  spec.characters spec.accented_title = 101%nat /\
  forall (description : string) (priority : domain.TodoPriority) (w : World),
    domain.NewTodo spec.accented_title description "u1" "t1" priority w
    = (inr domain.ErrTitleTooLong, w).
Proof.
  split; [vm_compute; reflexivity |].
  intros. unfold domain.NewTodo.
  replace (domain.validateTitle spec.accented_title) with (Some domain.ErrTitleTooLong)
    by (vm_compute; reflexivity).
  reflexivity.
Qed.

(** ** The partial-update applier *)

Lemma applyPath_carried (updates : todov1.Todo) (path : string) (t : domain.Todo) (w : World) :
  app.applyPath updates path t w =
    match spec.carriedMutator updates path with
    | Some m => m t w
    | None => (None, t, w)
    end.
Proof.
  unfold app.applyPath, spec.carriedMutator, spec.namedMutator, app.done_.
  repeat match goal with
         | |- context [String.eqb path ?s] =>
           destruct (String.eqb_spec path s); [subst path; cbn |]
         end; cbn; try reflexivity.
  - destruct (todov1.DueDate updates); reflexivity.
  - destruct (String.eqb (todov1.AssignedTo updates) ""); reflexivity.
  - destruct (todov1.Tags updates); reflexivity.
Qed.

Lemma rangePaths_Applies (updates : todov1.Todo) (paths : list string) :
  forall t w,
    spec.Applies (spec.carriedMutator updates) paths t w (app.rangePaths updates paths t w).
Proof.
  induction paths as [| path rest IH]; intros t w; cbn.
  - constructor.
  - unfold app.andThen. rewrite applyPath_carried.
    destruct (spec.carriedMutator updates path) as [m |] eqn:HM.
    + destruct (m t w) as [[[err |] t'] w'] eqn:Hm.
      * eapply spec.applies_failed; eauto.
      * eapply spec.applies_applied; eauto.
    + apply spec.applies_ignored; auto.
Qed.

Lemma updateAllFields_rangePaths (updates : todov1.Todo) (t : domain.Todo) (w : World) :
  app.updateAllFields updates t w
  = app.rangePaths updates ["title"; "description"; "priority"] t w.
Proof. reflexivity. Qed.

Lemma applyFieldMaskUpdates_effectivePaths (updates : todov1.Todo)
    (mask : option todov1.FieldMask) (t : domain.Todo) (w : World) :
  app.applyFieldMaskUpdates updates mask t w
  = app.rangePaths updates (spec.effectivePaths mask) t w.
Proof.
  unfold app.applyFieldMaskUpdates, spec.effectivePaths.
  destruct mask as [[paths] |]; cbn; [| reflexivity].
  destruct paths; reflexivity.
Qed.

Lemma updateAllFields_maskOnly (updates : todov1.Todo) (t : domain.Todo) (w : World) :
  spec.maskOnly (app.updateAllFields updates t w).1.2 = spec.maskOnly t.
Proof.
  unfold app.updateAllFields, app.andThen, app.done_.
  unfold domain.UpdateTitle, domain.UpdateDescription, domain.UpdatePriority.
  destruct (domain.validateTitle _); [reflexivity |]. cbn -[Nat.ltb].
  destruct (2000 <? len (todov1.Description updates))%nat; [reflexivity |]. cbn -[Nat.ltb].
  destruct (negb _); reflexivity.
Qed.

(** C6, as amended.  The applier runs, in the order of the paths, the mutator
    of every named field for which the request carries a value, passes over
    unknown names and over a due date, assignee or tag list that the request
    leaves unset, and stops at the first mutator that fails, handing back its
    error.  Without a mask, or with an empty one, the paths are title,
    description and priority, and status, due date, assignment and tags come
    out as they went in. *)
Theorem applyFieldMaskUpdates_carried_fields (updates : todov1.Todo)
    (mask : option todov1.FieldMask) (t : domain.Todo) (w : World) :
  spec.Applies (spec.carriedMutator updates) (spec.effectivePaths mask) t w
               (app.applyFieldMaskUpdates updates mask t w) /\
  ((mask = None \/ exists m, mask = Some m /\ todov1.Paths m = []) ->
     spec.effectivePaths mask = ["title"; "description"; "priority"] /\
     spec.maskOnly (app.applyFieldMaskUpdates updates mask t w).1.2 = spec.maskOnly t) /\
  (forall path, spec.namedMutator updates path = None ->
     app.applyPath updates path t w = (None, t, w)).
Proof.
  split; [| split].
  - rewrite applyFieldMaskUpdates_effectivePaths. apply rangePaths_Applies.
  - intros Hm.
    assert (spec.effectivePaths mask = ["title"; "description"; "priority"]) as HE.
    { destruct Hm as [-> | (m & -> & Hp)]; [reflexivity |].
      unfold spec.effectivePaths. rewrite Hp. reflexivity. }
    split; [exact HE |].
    rewrite applyFieldMaskUpdates_effectivePaths, HE, <- updateAllFields_rangePaths.
    apply updateAllFields_maskOnly.
  - intros path HN. rewrite applyPath_carried.
    unfold spec.carriedMutator. rewrite HN.
    repeat match goal with |- context [if ?b then _ else _] => destruct b end; reflexivity.
Qed.

(** C6, as stated, fails: with [due_date] in the mask and no due date in
    the request, running the mutator of the named field would clear the due
    date and count a version; the applier leaves the todo as it is. *)
Lemma applier_skips_unset_due_date :
  ~ spec.Applies (spec.namedMutator spec.no_due_date)
                 (spec.effectivePaths spec.due_date_mask)
                 spec.dated_todo spec.world0
                 (app.applyFieldMaskUpdates spec.no_due_date spec.due_date_mask
                                            spec.dated_todo spec.world0).
Proof.
  change (app.applyFieldMaskUpdates spec.no_due_date spec.due_date_mask
            spec.dated_todo spec.world0)
    with (@None domain.error, spec.dated_todo, spec.world0).
  change (spec.effectivePaths spec.due_date_mask) with ["due_date"].
  intros H. inversion H as [| ? ? ? ? ? HM | ? ? ? ? ? ? ? ? HM Hm | ? ? ? ? ? ? ? ? HM Hm Hrest]; subst.
  - discriminate HM.
  - injection HM as <-. inversion Hrest; subst.
    discriminate Hm.
Qed.

(** ** The version the service hands to the conditional write *)

Lemma touch_version (t t' : domain.Todo) (w w' : World) (err : option domain.error) :
  domain.touch t w = (err, t', w') ->
  err = None /\ domain.Version t' = incr64 (domain.Version t).
Proof. unfold domain.touch. cbn. intros [= <- <- <-]. auto. Qed.

Lemma carriedMutator_version (updates : todov1.Todo) (path : string) (m : app.Mutation)
    (t t' : domain.Todo) (w w' : World) :
  spec.carriedMutator updates path = Some m ->
  m t w = (None, t', w') ->
  domain.Version t' = incr64 (domain.Version t).
Proof.
  unfold spec.carriedMutator, spec.namedMutator.
  repeat match goal with
         | |- context [String.eqb path ?s] =>
           destruct (String.eqb_spec path s); [subst path; cbn -[Nat.ltb] |]
         end; cbn -[Nat.ltb].
  all: repeat match goal with
              | |- context [bool_decide ?P] => destruct (bool_decide P)
              | |- context [String.eqb ?a ?b] => destruct (String.eqb a b)
              end; cbn -[Nat.ltb]; try discriminate.
  all: intros [= <-].
  all: unfold domain.UpdateTitle, domain.UpdateDescription, domain.UpdatePriority,
         domain.UpdateStatus, domain.SetDueDate, domain.AssignTo, domain.AddTags.
  all: repeat match goal with
              | |- context [match ?x with _ => _ end] =>
                lazymatch x with
                | domain.touch _ _ => fail
                | _ => destruct x eqn:?
                end
              end; try discriminate.
  all: intros H; apply touch_version in H; destruct H as [_ H]; exact H.
Qed.

Lemma callsMutator_carried (updates : todov1.Todo) (path : string) :
  app.callsMutator updates path = true <-> is_Some (spec.carriedMutator updates path).
Proof.
  unfold app.callsMutator, spec.carriedMutator, spec.namedMutator.
  repeat match goal with
         | |- context [String.eqb path ?s] =>
           destruct (String.eqb_spec path s); [subst path; cbn -[Nat.ltb] |]
         end; cbn -[Nat.ltb].
  all: try (split; [eauto | reflexivity]).
  - destruct (todov1.DueDate updates); cbn; split; eauto; try discriminate.
    intros [? H]; discriminate H.
  - destruct (String.eqb (todov1.AssignedTo updates) ""); cbn; split; eauto; try discriminate.
    intros [? H]; discriminate H.
  - destruct (todov1.Tags updates); cbn; split; eauto; try discriminate.
    intros [? H]; discriminate H.
  - split; [discriminate |]. intros [? H]; discriminate H.
Qed.

Lemma rangePaths_version (updates : todov1.Todo) (paths : list string) :
  forall (t t' : domain.Todo) (w w' : World),
    in_int64 (domain.Version t) ->
    app.rangePaths updates paths t w = (None, t', w') ->
    domain.Version t'
    = wrap64 (domain.Version t
              + Z.of_nat (length (filter (fun p => app.callsMutator updates p = true) paths))).
Proof.
  induction paths as [| path rest IH]; intros t t' w w' Hv; cbn [app.rangePaths].
  - unfold app.done_. intros [= <- <-]. cbn. rewrite Z.add_0_r.
    symmetry. apply wrap64_small, Hv.
  - unfold app.andThen. rewrite applyPath_carried, filter_cons.
    pose proof (callsMutator_carried updates path) as HC.
    destruct (spec.carriedMutator updates path) as [m |] eqn:HM.
    + destruct (m t w) as [[[err |] t1] w1] eqn:Hm; [discriminate |].
      intros Hrest.
      pose proof (carriedMutator_version _ _ _ _ _ _ _ HM Hm) as Hv1.
      rewrite (IH t1 t' w1 w' ltac:(rewrite Hv1; apply wrap64_range) Hrest).
      rewrite decide_True by (apply HC; eauto).
      rewrite Hv1. unfold incr64. rewrite wrap64_add_l. f_equal. cbn [length]. lia.
    + intros Hrest. rewrite decide_False; [eauto |].
      intros HT. apply HC in HT. destruct HT as [? HT]. discriminate HT.
Qed.

Lemma mutatorsRun_effectivePaths (updates : todov1.Todo) (mask : option todov1.FieldMask) :
  app.mutatorsRun updates mask
  = length (filter (fun p => app.callsMutator updates p = true) (spec.effectivePaths mask)).
Proof.
  unfold app.mutatorsRun, spec.effectivePaths.
  destruct mask as [[[| p ps]] |]; reflexivity.
Qed.

Lemma applier_version (updates : todov1.Todo) (mask : option todov1.FieldMask)
    (t t' : domain.Todo) (w w' : World) :
  in_int64 (domain.Version t) ->
  app.applyFieldMaskUpdates updates mask t w = (None, t', w') ->
  domain.Version t'
  = wrap64 (domain.Version t + Z.of_nat (app.mutatorsRun updates mask)).
Proof.
  intros HN HA. rewrite mutatorsRun_effectivePaths.
  rewrite applyFieldMaskUpdates_effectivePaths in HA.
  eapply rangePaths_version; eauto.
Qed.

Lemma UpdateTodo_reaches_Update {DB : Type} `{repo : !domain.Repository.t DB}
    (userCtx : auth.UserContext) (req : todov1.UpdateTodoRequest) (db : DB) (w w' : World)
    (existing updated : domain.Todo) :
  domain.Repository.GetByID (todov1.req_Id req) (auth.TenantID userCtx) db = inl existing ->
  auth.CanUpdate userCtx existing = true ->
  app.applyFieldMaskUpdates (todov1.req_Todo req) (todov1.UpdateMask req) existing w
    = (None, updated, w') ->
  app.UpdateTodo (Some userCtx) req db w
  = app.afterUpdate updated (domain.Repository.Update updated db w').
Proof.
  intros HG HC HA. unfold app.UpdateTodo.
  rewrite HG, HC. cbn [negb]. rewrite HA. reflexivity.
Qed.

(** C3.  When [UpdateTodo] reaches the repository, the todo it hands to
    [Update] - whose [Version] the conditional write compares with the stored
    one - has the loaded version [N] incremented once for each of the [k]
    mutators the applier ran: [N + k] in [int64] arithmetic, which is [N + k]
    itself whenever that is representable, and is then [N] only for
    [k = 0]. *)
Theorem UpdateTodo_expected_version {DB : Type} `{repo : !domain.Repository.t DB}
    (userCtx : auth.UserContext) (req : todov1.UpdateTodoRequest) (db : DB) (w w' : World)
    (existing updated : domain.Todo) :
  domain.Repository.GetByID (todov1.req_Id req) (auth.TenantID userCtx) db = inl existing ->
  auth.CanUpdate userCtx existing = true ->
  in_int64 (domain.Version existing) ->
  app.applyFieldMaskUpdates (todov1.req_Todo req) (todov1.UpdateMask req) existing w
    = (None, updated, w') ->
  let N := domain.Version existing in
  let k := Z.of_nat (app.mutatorsRun (todov1.req_Todo req) (todov1.UpdateMask req)) in
  app.UpdateTodo (Some userCtx) req db w
    = app.afterUpdate updated (domain.Repository.Update updated db w') /\
  domain.Version updated = wrap64 (N + k) /\
  (N + k <= max_int64 ->
     domain.Version updated = N + k /\ (domain.Version updated = N <-> k = 0)).
Proof.
  intros HG HC HN HA N k.
  pose proof (applier_version _ _ _ _ _ _ HN HA) as HV. fold N k in HV.
  split; [eapply UpdateTodo_reaches_Update; eauto |]. split; [exact HV |].
  intros Hle. rewrite HV, wrap64_small.
  - split; [reflexivity | lia].
  - unfold in_int64 in *. unfold min_int64, max_int64 in *. subst N k. lia.
Qed.

(** ** The conditional write *)

Lemma liveRow_Some (id tenantID : string) (tbl : postgres.Table) (r : postgres.Row) :
  postgres.liveRow id tenantID tbl = Some r <->
  tbl !! id = Some r /\ domain.TenantID (postgres.todo r) = tenantID
  /\ postgres.deleted_at r = None.
Proof.
  unfold postgres.liveRow. destruct (tbl !! id) as [r0 |]; [| split; [discriminate | intros [H _]; discriminate H]].
  destruct (String.eqb_spec (domain.TenantID (postgres.todo r0)) tenantID) as [Ht | Ht]; cbn.
  - case_bool_decide as Hd.
    + split; [intros [= <-]; auto | intros ([= <-] & _); reflexivity].
    + split; [discriminate | intros ([= <-] & _ & Hd'); contradiction].
  - split; [discriminate | intros ([= <-] & Ht' & _); contradiction].
Qed.

Lemma liveRow_None (id tenantID : string) (tbl : postgres.Table) :
  postgres.liveRow id tenantID tbl = None <->
  tbl !! id = None \/
  exists r, tbl !! id = Some r /\
            (domain.TenantID (postgres.todo r) <> tenantID \/ postgres.deleted_at r <> None).
Proof.
  destruct (postgres.liveRow id tenantID tbl) as [r |] eqn:HL.
  - apply liveRow_Some in HL. destruct HL as (Hl & Ht & Hd).
    split; [discriminate |]. intros [Hn | (r' & Hr' & Hc)]; [congruence |].
    assert (r' = r) by congruence. subst r'. tauto.
  - split; [intros _ | reflexivity].
    destruct (tbl !! id) as [r |] eqn:Hl; [right | left; reflexivity].
    exists r. split; [reflexivity |].
    destruct (decide (domain.TenantID (postgres.todo r) = tenantID)) as [Ht | Ht]; [| left; exact Ht].
    destruct (decide (postgres.deleted_at r = None)) as [Hd | Hd]; [| right; exact Hd].
    assert (postgres.liveRow id tenantID tbl = Some r) by (apply liveRow_Some; auto).
    congruence.
Qed.

Lemma Update_cases (t : domain.Todo) (tbl : postgres.Table) (w : World) :
  (exists r, tbl !! domain.ID t = Some r /\ postgres.deleted_at r = None /\
             domain.TenantID (postgres.todo r) = domain.TenantID t /\
             domain.Version (postgres.todo r) = domain.Version t /\
             postgres.Update t tbl w
             = (None, <[domain.ID t := postgres.Update_set t (time_Now w).1 r]> tbl,
                (time_Now w).2)) \/
  ((tbl !! domain.ID t = None \/
    exists r, tbl !! domain.ID t = Some r /\
              (domain.TenantID (postgres.todo r) <> domain.TenantID t \/
               postgres.deleted_at r <> None \/
               domain.Version (postgres.todo r) <> domain.Version t)) /\
   postgres.Update t tbl w = (Some domain.ErrVersionMismatch, tbl, (time_Now w).2)).
Proof.
  unfold postgres.Update. cbn [time_Now fst snd].
  destruct (postgres.liveRow (domain.ID t) (domain.TenantID t) tbl) as [r |] eqn:HL.
  - apply liveRow_Some in HL. destruct HL as (Hl & Ht & Hd).
    destruct (Z.eqb_spec (domain.Version (postgres.todo r)) (domain.Version t)) as [Hv | Hv].
    + left. exists r. auto.
    + right. split; [| reflexivity]. right. exists r. auto.
  - right. split; [| reflexivity].
    apply liveRow_None in HL. destruct HL as [Hn | (r & Hl & Hc)]; [left; exact Hn |].
    right. exists r. split; [exact Hl | tauto].
Qed.

Lemma UpdateStatus_cases (id tenantID : string) (status : domain.TodoStatus) (version : Z)
    (tbl : postgres.Table) (w : World) :
  (exists r, tbl !! id = Some r /\ postgres.deleted_at r = None /\
             domain.TenantID (postgres.todo r) = tenantID /\
             domain.Version (postgres.todo r) = version /\
             postgres.UpdateStatus id tenantID status version tbl w
             = (inl (postgres.todo (postgres.UpdateStatus_set status (time_Now w).1 r)),
                <[id := postgres.UpdateStatus_set status (time_Now w).1 r]> tbl,
                (time_Now w).2)) \/
  ((tbl !! id = None \/
    exists r, tbl !! id = Some r /\
              (domain.TenantID (postgres.todo r) <> tenantID \/
               postgres.deleted_at r <> None \/
               domain.Version (postgres.todo r) <> version)) /\
   postgres.UpdateStatus id tenantID status version tbl w
   = (inr domain.ErrVersionMismatch, tbl, (time_Now w).2)).
Proof.
  unfold postgres.UpdateStatus. cbn [time_Now fst snd].
  destruct (postgres.liveRow id tenantID tbl) as [r |] eqn:HL.
  - apply liveRow_Some in HL. destruct HL as (Hl & Ht & Hd).
    destruct (Z.eqb_spec (domain.Version (postgres.todo r)) version) as [Hv | Hv].
    + left. exists r. auto.
    + right. split; [| reflexivity]. right. exists r. auto.
  - right. split; [| reflexivity].
    apply liveRow_None in HL. destruct HL as [Hn | (r & Hl & Hc)]; [left; exact Hn |].
    right. exists r. split; [exact Hl | tauto].
Qed.


(** ** Batches *)

Lemma tx_Exec_committed (t : domain.Todo) (c : postgres.Conn) :
  postgres.committed (postgres.tx_Exec t c).2 = postgres.committed c.
Proof.
  unfold postgres.tx_Exec. destruct (postgres.pending c) as [seen |]; [| reflexivity].
  destruct (postgres.insertRow t seen); reflexivity.
Qed.

Lemma rangeTodos_committed (todos : list domain.Todo) :
  forall c, postgres.committed (postgres.rangeTodos todos c).2 = postgres.committed c.
Proof.
  induction todos as [| t rest IH]; intros c; cbn; [reflexivity |].
  pose proof (tx_Exec_committed t c) as HC.
  destruct (postgres.tx_Exec t c) as [[err |] c']; cbn in *; [exact HC |].
  rewrite IH. exact HC.
Qed.

Lemma freshBatch_cons (t : domain.Todo) (rest : list domain.Todo) (tbl : postgres.Table) :
  spec.freshBatch (t :: rest) tbl <->
  tbl !! domain.ID t = None /\
  spec.freshBatch rest (<[domain.ID t := postgres.mkRow t None]> tbl).
Proof.
  unfold spec.freshBatch. rewrite fmap_cons, NoDup_cons, Forall_cons, !Forall_forall.
  rewrite list_elem_of_fmap. split.
  - intros [[Hni Hnd] [Hf Hall]]. repeat split; auto.
    intros u Hu. rewrite lookup_insert_ne; [auto |].
    intros Heq. apply Hni. exists u. auto.
  - intros [Hf [Hnd Hall]]. repeat split; auto.
    + intros (u & Heq & Hu). specialize (Hall u Hu).
      rewrite Heq, lookup_insert_eq in Hall. discriminate.
    + intros u Hu. specialize (Hall u Hu).
      destruct (decide (domain.ID t = domain.ID u)) as [Heq | Hne].
      * rewrite Heq, lookup_insert_eq in Hall. discriminate.
      * rewrite lookup_insert_ne in Hall; auto.
Qed.

Lemma rangeTodos_result (todos : list domain.Todo) :
  forall (tbl seen : postgres.Table),
    let r := postgres.rangeTodos todos (postgres.mkConn tbl (Some seen)) in
    (r.1 = None <-> spec.freshBatch todos seen) /\
    (r.1 = None -> r.2 = postgres.mkConn tbl (Some (spec.withBatch todos seen))).
Proof.
  induction todos as [| t rest IH]; intros tbl seen; cbn.
  - split; [| reflexivity]. split; [| reflexivity].
    intros _. split; constructor.
  - rewrite freshBatch_cons. unfold postgres.tx_Exec, postgres.insertRow. cbn.
    destruct (seen !! domain.ID t) as [r0 |] eqn:Hl; cbn.
    + split; [| discriminate]. split; [discriminate | intros [H _]; discriminate H].
    + destruct (IH tbl (<[domain.ID t := postgres.mkRow t None]> seen)) as [IH1 IH2].
      split; [| exact IH2]. rewrite IH1. tauto.
Qed.




(** ** The compiled filter *)

Ltac filter_cases f :=
  destruct f as [? [?|] [?|] [|? ?] [|? ?] [|? ?] [?|] [?|] [?|] ? ? ? ?].

Lemma whereClause_counts (f : domain.ListFilter) :
  let c := postgres.whereClause f in
  length (postgres.conditions c) = (2 + spec.count_true (spec.populated f))%nat /\
  length (postgres.args c) = (1 + spec.count_true (spec.populated f))%nat /\
  postgres.argCount c = length (postgres.args c).
Proof. filter_cases f; vm_compute; auto. Qed.

Lemma whereClause_text_by_shape (f : domain.ListFilter) :
  (postgres.buildWhereClause f).1 = (postgres.buildWhereClause (spec.shaped (spec.populated f))).1.
Proof. filter_cases f; reflexivity. Qed.

(** C2.  For every filter the second conjunct of the compiled predicate is
    [delete_at IS NULL], and the predicate never mentions [deleted_at]: it
    names a column table [todos] does not have, where every other statement
    of the repository guards with [deleted_at IS NULL]. *)
Theorem buildWhereClause_soft_delete_column (f : domain.ListFilter) :
  (exists rest,
     postgres.conditions (postgres.whereClause f)
     = "tenant_id = $1" :: "delete_at IS NULL" :: rest) /\
  postgres.Contains (postgres.buildWhereClause f).1 "deleted_at" = false /\
  ~ In "delete_at" postgres.todos_columns /\
  In "deleted_at" postgres.todos_columns /\
  postgres.Contains postgres.GetByID_query "deleted_at IS NULL" = true /\
  postgres.Contains postgres.Update_query "deleted_at IS NULL" = true /\
  postgres.Contains postgres.Delete_query "deleted_at IS NULL" = true /\
  postgres.Contains postgres.UpdateStatus_query "deleted_at IS NULL" = true.
Proof.
  split; [| split; [| split; [| split; [| repeat split]]]].
  - filter_cases f; eexists; reflexivity.
  - filter_cases f; vm_compute; reflexivity.
  - cbn. intros H. repeat destruct H as [H | H]; try discriminate H. exact H.
  - cbn. tauto.
Qed.

(** ** Ordering *)

Lemma validSortFields_In (s : string) :
  default false (postgres.validSortFields !! s) = true <-> In s spec.sortFields.
Proof.
  unfold postgres.validSortFields, spec.sortFields.
  repeat (rewrite lookup_insert; case_decide;
          [ subst s; cbn; split; [intros _; auto 10 | reflexivity] |]).
  rewrite lookup_empty. cbn. split; [discriminate |].
  intros HI. repeat destruct HI as [HI | HI]; try congruence. contradiction.
Qed.

(** C7, as amended.  An allow-listed sort field is used with the requested
    direction; any other value, the empty one included, yields [created_at]
    with the requested direction (descending unless ascending is asked
    for). *)
Theorem buildOrderByClause_allow_list (f : domain.ListFilter) :
  (In (domain.SortBy f) spec.sortFields ->
     postgres.buildOrderByClause f
     = "ORDER BY " +:+ domain.SortBy f +:+ " " +:+ spec.direction (domain.SortAscending f)) /\
  (~ In (domain.SortBy f) spec.sortFields ->
     postgres.buildOrderByClause f
     = "ORDER BY created_at " +:+ spec.direction (domain.SortAscending f)).
Proof.
  unfold postgres.buildOrderByClause, spec.direction.
  pose proof (validSortFields_In (domain.SortBy f)) as HV.
  destruct (default false (postgres.validSortFields !! domain.SortBy f)).
  - split; [reflexivity |]. intros Hn. exfalso. apply Hn, HV. reflexivity.
  - split; [| reflexivity]. intros Hi. apply HV in Hi. discriminate.
Qed.

(** C7, as stated, fails: an unknown sort field with ascending order
    requested compiles to [ORDER BY created_at ASC]. *)
Lemma unknown_sort_field_keeps_direction :
  ~ (~ In (domain.SortBy spec.bogus_ascending) spec.sortFields ->
     postgres.buildOrderByClause spec.bogus_ascending = "ORDER BY created_at DESC").
Proof.
  intros H.
  assert (postgres.buildOrderByClause spec.bogus_ascending = "ORDER BY created_at DESC") as HD.
  { apply H. cbn. intros HI. repeat destruct HI as [HI | HI]; try discriminate HI. exact HI. }
  vm_compute in HD. discriminate HD.
Qed.

(** ** Pagination *)

Lemma wrap64_mul_l (a b : Z) : wrap64 (wrap64 a * b) = wrap64 (a * b).
Proof.
  unfold wrap64. f_equal.
  rewrite <- (Z.add_mod_idemp_l (((a + 2 ^ 63) mod 2 ^ 64 - 2 ^ 63) * b)) by lia.
  rewrite <- (Z.add_mod_idemp_l (a * b)) by lia.
  f_equal. f_equal.
  rewrite <- Z.mul_mod_idemp_l by lia.
  rewrite <- (Z.mul_mod_idemp_l a) by lia.
  f_equal. f_equal.
  rewrite <- Zminus_mod_idemp_l.
  rewrite Z.mod_mod by lia.
  rewrite Zminus_mod_idemp_l. f_equal. lia.
Qed.

(** C8.  A filter with a tenant id passes [Validate] whatever its page and
    page size are: the page becomes [max 1 page], a page size outside
    [1..100] becomes 20.  The page statement of [List] then binds the page
    size to its [LIMIT] placeholder and [(page - 1) * page_size], computed on
    [int], to its [OFFSET] placeholder; that is the exact product whenever it
    is representable, in particular for every 32-bit page. *)
Theorem Validate_clamps_pagination (f : domain.ListFilter) :
  domain.f_TenantID f <> "" ->
  let '(err, f') := domain.Validate f in
  let page := Z.max 1 (domain.Page f) in
  let pageSize :=
    if (1 <=? domain.PageSize f) && (domain.PageSize f <=? 100)
    then domain.PageSize f else 20 in
  let args := (postgres.buildWhereClause f').2 in
  err = None /\
  f' = domain.set_PageSize pageSize (domain.set_Page page f) /\
  1 <= pageSize <= 100 /\
  postgres.bound (postgres.List_query f') !! length args = Some (postgres.ArgInt pageSize) /\
  postgres.bound (postgres.List_query f') !! S (length args)
    = Some (postgres.ArgInt (postgres.List_offset f')) /\
  postgres.text (postgres.List_query f')
    = "SELECT id, title, description, status, priority, due_date, tags, owner_id, assigned_to, tenant_id, created_at, updated_at, version FROM todos WHERE "
      +:+ (postgres.buildWhereClause f').1 +:+ " " +:+ postgres.buildOrderByClause f'
      +:+ " LIMIT $" +:+ pretty (S (length args))
      +:+ " OFFSET $" +:+ pretty (S (S (length args))) /\
  postgres.List_offset f' = wrap64 ((page - 1) * pageSize) /\
  ((page - 1) * pageSize <= max_int64 -> postgres.List_offset f' = (page - 1) * pageSize) /\
  (domain.Page f <= 2 ^ 31 - 1 -> postgres.List_offset f' = (page - 1) * pageSize).
Proof.
  intros HT. unfold domain.Validate.
  destruct (String.eqb_spec (domain.f_TenantID f) "") as [| _]; [contradiction |].
  set (page := Z.max 1 (domain.Page f)).
  set (pageSize := if (1 <=? domain.PageSize f) && (domain.PageSize f <=? 100)
                   then domain.PageSize f else 20).
  set (f1 := if domain.Page f <? 1 then domain.set_Page 1 f else f).
  set (f' := if (domain.PageSize f1 <? 1) || (100 <? domain.PageSize f1)
             then domain.set_PageSize 20 f1 else f1).
  cbv zeta.
  assert (f1 = domain.set_Page page f) as E1.
  { subst f1 page. destruct (Z.ltb_spec (domain.Page f) 1).
    - rewrite Z.max_l by lia. reflexivity.
    - rewrite Z.max_r by lia. destruct f; reflexivity. }
  assert (1 <= pageSize <= 100) as HPS.
  { subst pageSize.
    destruct (Z.leb_spec 1 (domain.PageSize f)), (Z.leb_spec (domain.PageSize f) 100); cbn; lia. }
  assert (f' = domain.set_PageSize pageSize (domain.set_Page page f)) as E2.
  { subst f' pageSize. rewrite E1.
    change (domain.PageSize (domain.set_Page page f)) with (domain.PageSize f).
    destruct (Z.ltb_spec (domain.PageSize f) 1), (Z.ltb_spec 100 (domain.PageSize f)),
      (Z.leb_spec 1 (domain.PageSize f)), (Z.leb_spec (domain.PageSize f) 100);
      cbn; try lia; try reflexivity; destruct f; reflexivity. }
  assert (postgres.List_offset f' = wrap64 ((page - 1) * pageSize)) as HO.
  { rewrite E2. unfold postgres.List_offset. cbn. apply wrap64_mul_l. }
  assert ((page - 1) * pageSize <= max_int64 ->
          postgres.List_offset f' = (page - 1) * pageSize) as HX.
  { intros Hle. rewrite HO. apply wrap64_small.
    unfold in_int64, min_int64. split; [| exact Hle]. subst page. nia. }
  split; [reflexivity |]. split; [exact E2 |]. split; [exact HPS |].
  assert (domain.PageSize f' = pageSize) as EPS by (rewrite E2; reflexivity).
  unfold postgres.List_query.
  destruct (postgres.buildWhereClause f') as [where_ args] eqn:HW. cbn [fst snd postgres.bound postgres.text].
  rewrite EPS.
  split; [| split; [| split; [| split; [exact HO | split; [exact HX |]]]]].
  - rewrite lookup_app_r by lia. rewrite Nat.sub_diag. reflexivity.
  - rewrite lookup_app_r by lia.
    replace (S (length args) - length args)%nat with 1%nat by lia. reflexivity.
  - rewrite !Nat.add_succ_r, !Nat.add_0_r. reflexivity.
  - intros Hp. apply HX. unfold max_int64. subst page. nia.
Qed.

(** ** Rows stay under their ids *)

Lemma wellKeyed_empty : postgres.wellKeyed ∅.
Proof. intros id r H. rewrite lookup_empty in H. discriminate. Qed.

Lemma wellKeyed_insert (tbl : postgres.Table) (id : string) (r : postgres.Row) :
  postgres.wellKeyed tbl -> domain.ID (postgres.todo r) = id -> postgres.wellKeyed (<[id := r]> tbl).
Proof.
  intros HW Hid j r' Hl. rewrite lookup_insert in Hl. case_decide.
  - injection Hl as <-. congruence.
  - apply HW, Hl.
Qed.

Lemma Create_wellKeyed (t : domain.Todo) (tbl : postgres.Table) :
  postgres.wellKeyed tbl -> postgres.wellKeyed (postgres.Create t tbl).2.
Proof.
  intros HW. unfold postgres.Create, postgres.insertRow.
  destruct (tbl !! domain.ID t); cbn; [exact HW |].
  apply wellKeyed_insert; auto.
Qed.

Lemma Update_wellKeyed (t : domain.Todo) (tbl : postgres.Table) (w : World) :
  postgres.wellKeyed tbl -> postgres.wellKeyed (postgres.Update t tbl w).1.2.
Proof.
  intros HW.
  destruct (Update_cases t tbl w) as [(r & Hl & _ & _ & _ & ->) | [_ ->]]; cbn; [| exact HW].
  apply wellKeyed_insert; [exact HW |]. cbn. apply HW, Hl.
Qed.

Lemma UpdateStatus_wellKeyed (id tenantID : string) (status : domain.TodoStatus)
    (version : Z) (tbl : postgres.Table) (w : World) :
  postgres.wellKeyed tbl -> postgres.wellKeyed (postgres.UpdateStatus id tenantID status version tbl w).1.2.
Proof.
  intros HW.
  destruct (UpdateStatus_cases id tenantID status version tbl w)
    as [(r & Hl & _ & _ & _ & ->) | [_ ->]]; cbn; [| exact HW].
  apply wellKeyed_insert; [exact HW |]. cbn. apply HW, Hl.
Qed.

Lemma Delete_wellKeyed (id tenantID : string) (tbl : postgres.Table) (w : World) :
  postgres.wellKeyed tbl -> postgres.wellKeyed (postgres.Delete id tenantID tbl w).1.2.
Proof.
  intros HW. unfold postgres.Delete. cbn.
  destruct (postgres.liveRow id tenantID tbl) as [r |] eqn:HL; cbn; [| exact HW].
  apply liveRow_Some in HL. destruct HL as (Hl & _).
  apply wellKeyed_insert; [exact HW |]. cbn. apply HW, Hl.
Qed.

Lemma withBatch_wellKeyed (todos : list domain.Todo) :
  forall tbl, postgres.wellKeyed tbl -> postgres.wellKeyed (spec.withBatch todos tbl).
Proof.
  induction todos as [| t rest IH]; intros tbl HW; cbn; [exact HW |].
  apply IH, wellKeyed_insert; auto.
Qed.

Lemma BatchCreate_wellKeyed (todos : list domain.Todo) (tbl : postgres.Table) :
  postgres.wellKeyed tbl -> postgres.wellKeyed (postgres.BatchCreate todos tbl).2.
Proof.
  intros HW. unfold postgres.BatchCreate, postgres.BeginTx.
  pose proof (rangeTodos_result todos tbl tbl) as [_ Hres].
  pose proof (rangeTodos_committed todos (postgres.mkConn tbl (Some tbl))) as Hc.
  cbn in Hres, Hc.
  destruct (postgres.rangeTodos todos (postgres.mkConn tbl (Some tbl))) as [[err |] c]; cbn in *.
  - rewrite Hc. exact HW.
  - rewrite (Hres eq_refl). cbn. apply withBatch_wellKeyed, HW.
Qed.

(** What [GetByID] loads from a well-keyed table carries the id and the
    tenant it was asked for. *)
Lemma GetByID_identity (id tenantID : string) (tbl : postgres.Table) (t : domain.Todo) :
  postgres.wellKeyed tbl ->
  postgres.GetByID id tenantID tbl = inl t ->
  domain.ID t = id /\ domain.TenantID t = tenantID /\
  exists r, tbl !! id = Some r /\ postgres.todo r = t /\ postgres.deleted_at r = None.
Proof.
  intros HW. unfold postgres.GetByID.
  destruct (postgres.liveRow id tenantID tbl) as [r |] eqn:HL; [| discriminate].
  intros [= <-]. apply liveRow_Some in HL. destruct HL as (Hl & Ht & Hd).
  repeat split; eauto.
Qed.

(** ** What the conditional write makes of an update through the service *)

Lemma touch_identity (t t' : domain.Todo) (w w' : World) (err : option domain.error) :
  domain.touch t w = (err, t', w') ->
  domain.ID t' = domain.ID t /\ domain.TenantID t' = domain.TenantID t.
Proof. unfold domain.touch. cbn. intros [= <- <- <-]. auto. Qed.

Lemma carriedMutator_identity (updates : todov1.Todo) (path : string) (m : app.Mutation)
    (t t' : domain.Todo) (w w' : World) (err : option domain.error) :
  spec.carriedMutator updates path = Some m ->
  m t w = (err, t', w') ->
  domain.ID t' = domain.ID t /\ domain.TenantID t' = domain.TenantID t.
Proof.
  unfold spec.carriedMutator, spec.namedMutator.
  repeat match goal with
         | |- context [String.eqb path ?s] =>
           destruct (String.eqb_spec path s); [subst path; cbn -[Nat.ltb] |]
         end; cbn -[Nat.ltb].
  all: repeat match goal with
              | |- context [bool_decide ?P] => destruct (bool_decide P)
              | |- context [String.eqb ?a ?b] => destruct (String.eqb a b)
              end; cbn -[Nat.ltb]; try discriminate.
  all: intros [= <-].
  all: unfold domain.UpdateTitle, domain.UpdateDescription, domain.UpdatePriority,
         domain.UpdateStatus, domain.SetDueDate, domain.AssignTo, domain.AddTags.
  all: repeat match goal with
              | |- context [match ?x with _ => _ end] =>
                lazymatch x with
                | domain.touch _ _ => fail
                | _ => destruct x eqn:?
                end
              end.
  all: first [ intros [= <- <- <-]; auto
             | intros H; apply touch_identity in H; exact H ].
Qed.

Lemma rangePaths_identity (updates : todov1.Todo) (paths : list string) :
  forall (t t' : domain.Todo) (w w' : World) (err : option domain.error),
    app.rangePaths updates paths t w = (err, t', w') ->
    domain.ID t' = domain.ID t /\ domain.TenantID t' = domain.TenantID t.
Proof.
  induction paths as [| path rest IH]; intros t t' w w' err; cbn [app.rangePaths].
  - unfold app.done_. intros [= <- <- <-]. auto.
  - unfold app.andThen. rewrite applyPath_carried.
    destruct (spec.carriedMutator updates path) as [m |] eqn:HM; [| apply IH].
    destruct (m t w) as [[[e |] t1] w1] eqn:Hm.
    + intros [= <- <- <-]. eapply carriedMutator_identity; eauto.
    + intros Hrest. apply IH in Hrest.
      pose proof (carriedMutator_identity _ _ _ _ _ _ _ _ HM Hm). intuition congruence.
Qed.

(** Against the Postgres repository an update through the service that ran
    at least one mutator is answered [Aborted], and nothing is written: the
    row is stored at [N], the write asks for [N + k]. *)
Lemma UpdateTodo_postgres_aborts (userCtx : auth.UserContext)
    (req : todov1.UpdateTodoRequest) (tbl : postgres.Table)
    (w w' : World) (existing updated : domain.Todo) :
  postgres.wellKeyed tbl ->
  postgres.GetByID (todov1.req_Id req) (auth.TenantID userCtx) tbl = inl existing ->
  auth.CanUpdate userCtx existing = true ->
  in_int64 (domain.Version existing) ->
  app.applyFieldMaskUpdates (todov1.req_Todo req) (todov1.UpdateMask req)
    existing w = (None, updated, w') ->
  (1 <= app.mutatorsRun (todov1.req_Todo req) (todov1.UpdateMask req))%nat ->
  domain.Version existing
  + Z.of_nat (app.mutatorsRun (todov1.req_Todo req) (todov1.UpdateMask req)) <= max_int64 ->
  app.UpdateTodo (repo := postgres.PostgresRepository) (Some userCtx) req tbl w
  = (inr (app.mkStatus app.Aborted "concurrent update detected, please retry"),
     tbl, (time_Now w').2).
Proof.
  intros HW HG HC HN HA Hk Hle.
  destruct (GetByID_identity _ _ _ _ HW HG) as (Hid & Ht & r & Hl & Hr & Hd).
  pose proof (applier_version _ _ _ _ _ _ HN HA) as Hv.
  rewrite wrap64_small in Hv
    by (unfold in_int64, min_int64, max_int64 in *; lia).
  rewrite (UpdateTodo_reaches_Update (repo := postgres.PostgresRepository)
             userCtx req tbl w w' existing updated HG HC HA).
  cbn [domain.Repository.Update postgres.PostgresRepository].
  rewrite applyFieldMaskUpdates_effectivePaths in HA.
  apply rangePaths_identity in HA. destruct HA as [HI HT'].
  destruct (Update_cases updated tbl w') as [(r0 & Hl0 & _ & _ & Hv0 & _) | [_ ->]].
  - exfalso. rewrite HI, Hid in Hl0. assert (r0 = r) by congruence. subst r0.
    rewrite Hr in Hv0. lia.
  - reflexivity.
Qed.

(** ** Concrete runs *)

(** The scenario of the specification: construct, start, complete, and an
    attempt to go from Completed back to InProgress. *)
Example ship_v1_scenario :
  exists w1 t2 w2 t3 w3,
    domain.NewTodo "Ship v1" "" "u1" "t1" domain.PriorityMedium spec.world0
      = (inl spec.ship_v1, w1) /\
    domain.UpdateStatus domain.StatusInProgress spec.ship_v1 w1 = (None, t2, w2) /\
    domain.Version t2 = 2 /\
    domain.UpdateStatus domain.StatusCompleted t2 w2 = (None, t3, w3) /\
    domain.Version t3 = 3 /\
    domain.UpdateStatus domain.StatusInProgress t3 w3
      = (Some domain.ErrInvalidStatusTransition, t3, w3).
Proof. do 5 eexists. repeat split; reflexivity. Qed.

(** A batch of three whose second todo has the id of a stored row. *)
Example batch_with_duplicate_scenario :
  postgres.BatchCreate [spec.with_id "b1" spec.ship_v1; spec.with_id "a1" spec.ship_v1; spec.with_id "b2" spec.ship_v1]
                       spec.sample_table
  = (Some (domain.Errorf "failed to insert todo a1" (UniqueViolation "todos_pkey")),
     spec.sample_table).
Proof. vm_compute. reflexivity. Qed.

Example batch_of_fresh_scenario :
  let '(err, tbl') :=
    postgres.BatchCreate [spec.with_id "b1" spec.ship_v1; spec.with_id "b2" spec.ship_v1] spec.sample_table in
  err = None /\ size tbl' = 3%nat.
Proof. vm_compute. split; reflexivity. Qed.

(** Two writers that loaded the same row at version 1: the first conditional
    write stores version 2, the second one is refused. *)
Example two_writers_scenario :
  let t := spec.dated_todo in
  let '(err1, tbl1, w1) := postgres.Update t spec.sample_table spec.world0 in
  let '(err2, tbl2, _) := postgres.Update t tbl1 w1 in
  err1 = None /\
  (domain.Version ∘ postgres.todo) <$> tbl1 !! "a1" = Some 2 /\
  err2 = Some domain.ErrVersionMismatch /\ tbl2 = tbl1.
Proof. vm_compute. repeat split; reflexivity. Qed.

(** The retitling request of [sample_user] on an uncontended table is
    answered [Aborted]. *)
Example retitle_scenario :
  (app.UpdateTodo (repo := postgres.PostgresRepository)
     (Some spec.sample_user) spec.retitle_request spec.sample_table spec.world0).1
  = (inr (app.mkStatus app.Aborted "concurrent update detected, please retry"),
     spec.sample_table).
Proof. vm_compute. reflexivity. Qed.

(** A filter on tenant and one tag compiles to three conjuncts and two bound
    values. *)
Example tag_filter_scenario :
  postgres.buildWhereClause
    (domain.mkListFilter "t1" None None [] [] ["urgent"] None None None 1 20 "" false)
  = ("tenant_id = $1 AND delete_at IS NULL AND tags && $2",
     [postgres.ArgString "t1"; postgres.ArgStringArray ["urgent"]]).
Proof. reflexivity. Qed.


(** The retitling request on [sample_table]: one mutator runs, and the
    conditional write is asked for version 2 of a row stored at version 1. *)
Lemma UpdateTodo_expected_version_witness :
  domain.Version spec.retitled.1.2 = 2 /\
  app.UpdateTodo (Some spec.sample_user) spec.retitle_request spec.sample_table spec.world0
  = app.afterUpdate spec.retitled.1.2
      (postgres.Update spec.retitled.1.2 spec.sample_table spec.retitled.2).
Proof.
  destruct (UpdateTodo_expected_version (repo := postgres.PostgresRepository)
              spec.sample_user spec.retitle_request spec.sample_table spec.world0 spec.retitled.2
              spec.dated_todo spec.retitled.1.2)
    as (Hcall & Hwrap & Hexact).
  - vm_compute. reflexivity.
  - vm_compute. reflexivity.
  - vm_compute. split; discriminate.
  - vm_compute. reflexivity.
  - split; [| exact Hcall].
    destruct Hexact as [Hv _]; [vm_compute; discriminate | exact Hv].
Defined.

(** Page 0 with page size 150 for tenant t1: page 1, limit 20, offset 0. *)
Lemma Validate_clamps_pagination_witness :
  (domain.Validate spec.oversized_page).1 = None /\
  domain.Page (domain.Validate spec.oversized_page).2 = 1 /\
  domain.PageSize (domain.Validate spec.oversized_page).2 = 20 /\
  postgres.bound (postgres.List_query (domain.Validate spec.oversized_page).2)
  = [postgres.ArgString "t1"; postgres.ArgInt 20; postgres.ArgInt 0].
Proof.
  pose proof (Validate_clamps_pagination spec.oversized_page) as H.
  assert (domain.f_TenantID spec.oversized_page <> "") as HT by (cbn; discriminate).
  specialize (H HT).
  destruct (domain.Validate spec.oversized_page) as [err f'] eqn:HV.
  cbv zeta in H. destruct H as (He & Hf & _).
  subst err f'. cbn. repeat split.
Defined.

